(** * AssetAllocation: a shallow embedding of [AssetAllocation.py]

    The program is one PyQt form class, [UiMainWindow].  Its state is a
    handful of attributes (the info table, the current balances, the target
    values, the file name) and the texts of six widgets; its methods read a
    Fidelity positions file, pick a fixed allocation from the year found in
    the file name and tell the user how much of each fund to buy or sell.

    The embedding keeps Python's data as the program has it:
    - a Python [float] is a binary64 value, [PrimFloat.float], and the
      arithmetic is the IEEE arithmetic of the kernel;
    - [int(x)], [round(x, n)], [str(x)] and [float(s)] are modelled in
      module [Py] from their CPython definitions, in exact integer
      arithmetic over the mantissa and exponent of the float;
    - a [str] is a [string] of 8-bit characters: the model covers ASCII
      text (a non-ASCII digit or space is an ordinary character here);
    - a method is a function in a state-and-exception monad over the
      attributes of the form: an exception leaves the state as it was when
      it was raised, which is what an except-less Python method does. *)

From Stdlib Require Import ZArith Floats String Ascii List Bool Lia.
Import ListNotations.
Set Warnings "-inexact-float".

(** * Python built-ins *)

Module Py.

Inductive exn : Set :=
  | ZeroDivisionError
  | ValueError
  | OverflowError
  | IndexError.

Local Open Scope Z_scope.

(** ** Exact arithmetic behind the float built-ins *)

(** A signed non-negative integer as a specification float. *)
Definition sf_of_Z (s : bool) (k : Z) : spec_float :=
  match k with
  | Zpos p => S754_finite s p 0
  | _ => S754_zero s
  end.

(** The binary64 value nearest to [num / den] (ties to even), for
    [0 <= num] and [0 < den]. *)
Definition nearest_float (s : bool) (num den : Z) : float :=
  SF2Prim (SFdiv prec emax (sf_of_Z s num) (sf_of_Z false den)).

(** [num / den] rounded to the nearest integer, ties to the even one. *)
Definition round_half_even (num den : Z) : Z :=
  let q := num / den in
  match 2 * (num mod den) ?= den with
  | Lt => q
  | Gt => q + 1
  | Eq => if Z.even q then q else q + 1
  end.

(** [m * 2^e] as a fraction. *)
Definition dyadic (m : positive) (e : Z) : Z * Z :=
  if 0 <=? e then (Zpos m * 2 ^ e, 1) else (Zpos m, 2 ^ (- e)).

(** ** [int(x)]: truncation toward zero; refuses nan and the infinities *)
Definition int (x : float) : exn + Z :=
  match Prim2SF x with
  | S754_nan => inl ValueError
  | S754_infinity _ => inl OverflowError
  | S754_zero _ => inr 0
  | S754_finite s m e =>
      let (num, den) := dyadic m e in
      inr (if s then - (num / den) else num / den)
  end.

(** ** [round(x, ndigits)], [ndigits >= 0]: the exact value of [x] rounded
    half-even to [ndigits] decimals, then read back as a float *)
Definition round (x : float) (ndigits : nat) : float :=
  match Prim2SF x with
  | S754_finite s m e =>
      let scale := 10 ^ Z.of_nat ndigits in
      let (num, den) := dyadic m e in
      nearest_float s (round_half_even (num * scale) den) scale
  | _ => x
  end.

(** ** Decimal digits *)
Definition digit_char (d : Z) : ascii :=
  ascii_of_nat (48 + Z.to_nat d).

Fixpoint digits_fuel (fuel : nat) (n : Z) (acc : string) : string :=
  match fuel with
  | O => acc
  | S fuel' =>
      let acc' := String (digit_char (n mod 10)) acc in
      if n <? 10 then acc' else digits_fuel fuel' (n / 10) acc'
  end.

(** The decimal digits of a non-negative integer. *)
Definition digits (n : Z) : string :=
  digits_fuel (S (Z.to_nat (Z.log2 n))) n EmptyString.

(** ** [str(x)] / [repr(x)] of a float: the shortest digit string that
    reads back as [x], the one nearest to [x] among these *)

(** Compare [c * 10^j] with [num / den]. *)
Definition cmp_dec (c j num den : Z) : comparison :=
  if 0 <=? j then (c * 10 ^ j * den ?= num) else (c * den ?= num * 10 ^ (- j)).

(** floor (num / (den * 10^j)) *)
Definition floor_dec (j num den : Z) : Z :=
  if 0 <=? j then num / (den * 10 ^ j) else (num * 10 ^ (- j)) / den.

(** The least [k] with [num / den < 10^k], searched from an estimate. *)
Fixpoint dec_exp_up (fuel : nat) (k num den : Z) : Z :=
  match fuel with
  | O => k
  | S fuel' =>
      match cmp_dec 1 k num den with
      | Gt => k
      | _ => dec_exp_up fuel' (k + 1) num den
      end
  end.

Fixpoint dec_exp_down (fuel : nat) (k num den : Z) : Z :=
  match fuel with
  | O => k
  | S fuel' =>
      match cmp_dec 1 (k - 1) num den with
      | Gt => dec_exp_down fuel' (k - 1) num den
      | _ => k
      end
  end.

Definition dec_exp (num den : Z) : Z :=
  let k0 := ((Z.log2 num - Z.log2 den) * 30103) / 100000 in
  dec_exp_up 8 (dec_exp_down 8 k0 num den) num den.

(** The reals that round to the binary64 value [m * 2^e]: the value and
    the two ends of the interval, as numerators over one denominator. *)
Definition rounding_interval (m : positive) (e : Z) : Z * Z * Z * Z :=
  let narrow := (Zpos m =? 2 ^ 52) && (-1074 <? e) in
  let v := 4 * Zpos m in
  let lo := if narrow then v - 1 else v - 2 in
  let hi := v + 2 in
  if 2 <=? e then
    let p := 2 ^ (e - 2) in (v * p, lo * p, hi * p, 1)
  else (v, lo, hi, 2 ^ (2 - e)).

Definition in_interval (incl : bool) (c j lo hi den : Z) : bool :=
  match cmp_dec c j lo den, cmp_dec c j hi den with
  | Gt, Lt => true
  | Eq, Lt | Gt, Eq => incl
  | _, _ => false
  end.

(** The candidate with [n] significant digits, when one reads back as the
    float: the nearer of the two neighbours of the value at that precision,
    the even one on a tie. *)
Definition candidate (incl : bool) (v lo hi den k : Z) (n : nat)
  : option (Z * Z) :=
  let j := k - Z.of_nat n in
  let c := floor_dec j v den in
  let down := in_interval incl c j lo hi den in
  let up := in_interval incl (c + 1) j lo hi den in
  let closer_up :=
    match cmp_dec (2 * c + 1) j (2 * v) den with
    | Lt => true
    | Gt => false
    | Eq => Z.odd c
    end in
  match down, up with
  | true, true => Some (if closer_up then c + 1 else c, j)
  | true, false => Some (c, j)
  | false, true => Some (c + 1, j)
  | false, false => None
  end.

Fixpoint shortest_from (fuel : nat) (incl : bool) (v lo hi den k : Z) (n : nat)
  : Z * Z :=
  match candidate incl v lo hi den k n with
  | Some r => r
  | None =>
      match fuel with
      | O => (floor_dec (k - Z.of_nat n) v den, k - Z.of_nat n)
      | S fuel' => shortest_from fuel' incl v lo hi den k (S n)
      end
  end.

Fixpoint strip_zeros (fuel : nat) (c j : Z) : Z * Z :=
  match fuel with
  | O => (c, j)
  | S fuel' =>
      if (c mod 10 =? 0) && negb (c =? 0) then strip_zeros fuel' (c / 10) (j + 1)
      else (c, j)
  end.

(** The digits of [m * 2^e] and the position of the decimal point: the
    value reads [0.d1 d2 ... dn * 10^decpt]. *)
Definition shortest_digits (m : positive) (e : Z) : string * Z :=
  let '(v, lo, hi, den) := rounding_interval m e in
  let k := dec_exp v den in
  let (c0, j0) := shortest_from 17 (Z.even (Zpos m)) v lo hi den k 1 in
  let (c, j) := strip_zeros 20 c0 j0 in
  let ds := digits c in
  (ds, Z.of_nat (String.length ds) + j).

Fixpoint zeros (n : nat) : string :=
  match n with
  | O => EmptyString
  | S n' => String "0" (zeros n')
  end.

Definition take (n : nat) (s : string) : string := substring 0 n s.

Definition drop (n : nat) (s : string) : string :=
  substring n (String.length s - n) s.

Local Open Scope string_scope.

(** Fixed notation while the decimal point lies within sixteen digits,
    exponent notation otherwise; a whole number gets [.0]. *)
Definition format_repr (ds : string) (decpt : Z) : string :=
  let n := Z.of_nat (String.length ds) in
  if (decpt <=? -4)%Z || (16 <? decpt)%Z then
    let ex := (decpt - 1)%Z in
    let frac := drop 1 ds in
    take 1 ds
      ++ (if String.eqb frac "" then "" else "." ++ frac)
      ++ "e" ++ (if (ex <? 0)%Z then "-" else "+")
      ++ (if (Z.abs ex <? 10)%Z then "0" else "") ++ digits (Z.abs ex)
  else if (decpt <=? 0)%Z then
    "0." ++ zeros (Z.to_nat (- decpt)) ++ ds
  else if (decpt <? n)%Z then
    take (Z.to_nat decpt) ds ++ "." ++ drop (Z.to_nat decpt) ds
  else
    ds ++ zeros (Z.to_nat (decpt - n)) ++ ".0".

Definition str (x : float) : string :=
  match Prim2SF x with
  | S754_nan => "nan"
  | S754_infinity s => if s then "-inf" else "inf"
  | S754_zero s => if s then "-0.0" else "0.0"
  | S754_finite s m e =>
      let (ds, decpt) := shortest_digits m e in
      (if s then "-" else "") ++ format_repr ds decpt
  end.

(** ** [float(s)] *)

Definition is_space (c : ascii) : bool :=
  let n := nat_of_ascii c in
  ((9 <=? n) && (n <=? 13) || (n =? 32))%nat.

Definition is_digit (c : ascii) : bool :=
  let n := nat_of_ascii c in ((48 <=? n) && (n <=? 57))%nat.

Definition digit_val (c : ascii) : Z := Z.of_nat (nat_of_ascii c - 48).

Definition lower (c : ascii) : ascii :=
  let n := nat_of_ascii c in
  if ((65 <=? n) && (n <=? 90))%nat then ascii_of_nat (n + 32) else c.

Fixpoint map_string (f : ascii -> ascii) (s : string) : string :=
  match s with
  | EmptyString => EmptyString
  | String c s' => String (f c) (map_string f s')
  end.

Fixpoint rev_onto (s acc : string) : string :=
  match s with
  | EmptyString => acc
  | String c s' => rev_onto s' (String c acc)
  end.

Definition rev_string (s : string) : string := rev_onto s EmptyString.

Fixpoint lstrip (s : string) : string :=
  match s with
  | String c s' => if is_space c then lstrip s' else s
  | EmptyString => s
  end.

Definition strip (s : string) : string :=
  rev_string (lstrip (rev_string (lstrip s))).

(** The digits at the front of [s], added to [acc], and their number. *)
Fixpoint take_digits (s : string) (acc : Z) (n : Z) : Z * Z * string :=
  match s with
  | String c s' =>
      if is_digit c then take_digits s' (10 * acc + digit_val c)%Z (n + 1)%Z
      else (acc, n, s)
  | EmptyString => (acc, n, s)
  end.

Definition take_sign (s : string) : bool * string :=
  match s with
  | String "-" s' => (true, s')
  | String "+" s' => (false, s')
  | _ => (false, s)
  end.

(** The exponent part, which is read only when digits follow the [e]. *)
Definition take_exponent (s : string) : Z * string :=
  match s with
  | String c s' =>
      if Ascii.eqb c "e" || Ascii.eqb c "E" then
        let (neg, s'') := take_sign s' in
        let '(ex, n, rest) := take_digits s'' 0 0 in
        if (0 <? n)%Z then ((if neg then - ex else ex)%Z, rest) else (0%Z, s)
      else (0%Z, s)
  | EmptyString => (0%Z, s)
  end.

(** [mant * 10^ex], correctly rounded. *)
Definition decimal_to_float (neg : bool) (mant ex : Z) : float :=
  if (0 <=? ex)%Z then nearest_float neg (mant * 10 ^ ex) 1
  else nearest_float neg mant (10 ^ (- ex)).

(** The float literal at the front of [s], and what follows it. *)
Definition strtod (s : string) : option (float * string) :=
  let (neg, s1) := take_sign s in
  let '(ip, ni, s2) := take_digits s1 0 0 in
  let '(mant, nf, s3) :=
    match s2 with
    | String "." s2' => take_digits s2' ip 0
    | _ => (ip, 0%Z, s2)
    end in
  if (0 <? ni + nf)%Z then
    let (ex, rest) := take_exponent s3 in
    Some (decimal_to_float neg mant (ex - nf), rest)
  else
    let low := map_string lower s1 in
    if prefix "infinity" low then
      Some (if neg then neg_infinity else infinity, drop 8 s1)
    else if prefix "inf" low then
      Some (if neg then neg_infinity else infinity, drop 3 s1)
    else if prefix "nan" low then Some (nan, drop 3 s1)
    else None.

(** An underscore may only stand between two digits; it is dropped. *)
Fixpoint drop_underscores (prev : ascii) (s : string) : option string :=
  match s with
  | EmptyString => if Ascii.eqb prev "_" then None else Some EmptyString
  | String c s' =>
      if Ascii.eqb c "_" then
        if is_digit prev then drop_underscores c s' else None
      else if Ascii.eqb prev "_" && negb (is_digit c) then None
      else option_map (String c) (drop_underscores c s')
  end.

(** [float(text)] for a [text] of ASCII characters; [None] stands for the
    [ValueError].  On other text CPython also reads U+0085 and U+00A0 as
    white space, which [is_space] does not: a statement that rests on a
    refusal is made for ASCII text. *)
Definition float (text : string) : option float :=
  match drop_underscores zero (strip text) with
  | Some s =>
      match strtod s with
      | Some (x, EmptyString) => Some x
      | _ => None
      end
  | None => None
  end.

(** ** Strings *)

(** [sub in s] *)
Fixpoint contains (sub s : string) : bool :=
  if prefix sub s then true
  else
    match s with
    | EmptyString => false
    | String _ s' => contains sub s'
    end.

(** [s.replace(c, '')] for a one-character [c] *)
Fixpoint remove_char (c : ascii) (s : string) : string :=
  match s with
  | EmptyString => EmptyString
  | String d s' =>
      if Ascii.eqb d c then remove_char c s' else String d (remove_char c s')
  end.

(** [c * n] for a one-character [c] *)
Fixpoint repeat_char (c : ascii) (n : nat) : string :=
  match n with
  | O => EmptyString
  | S n' => String c (repeat_char c n')
  end.

(** [s.ljust(width)], and [format(s, str(width))] for a string [s] *)
Definition ljust (width : nat) (s : string) : string :=
  s ++ repeat_char " " (width - String.length s).

(** [''.join(l)] *)
Definition join (l : list string) : string :=
  fold_right append EmptyString l.

(** [sum(l)] of floats, from the integer 0, left to right. *)
Definition sum (l : list PrimFloat.float) : PrimFloat.float :=
  fold_left PrimFloat.add l 0%float.

End Py.

(** * Regular expressions: the fragment [self.numbers] is written in *)

Module Re.

Local Open Scope string_scope.

Inductive regex : Set :=
  | Digit                       (* \d *)
  | Chr (c : ascii)             (* a literal character *)
  | Seq (r1 r2 : regex)         (* r1 r2 *)
  | Plus (r : regex)            (* r+ *)
  | Opt (r : regex).            (* (?:r)? *)

(** The strings a pattern matches. *)
Inductive matches : regex -> string -> Prop :=
  | m_digit c : Py.is_digit c = true -> matches Digit (String c EmptyString)
  | m_chr c : matches (Chr c) (String c EmptyString)
  | m_seq r1 r2 s1 s2 :
      matches r1 s1 -> matches r2 s2 -> matches (Seq r1 r2) (s1 ++ s2)
  | m_plus_one r s : matches r s -> matches (Plus r) s
  | m_plus_more r s1 s2 :
      matches r s1 -> matches (Plus r) s2 -> matches (Plus r) (s1 ++ s2)
  | m_opt_none r : matches (Opt r) EmptyString
  | m_opt_some r s : matches r s -> matches (Opt r) s.

(** [\d*] at the front of [s], greedy: the digits and what follows them. *)
Fixpoint span_digits (s : string) : string * string :=
  match s with
  | String c s' =>
      if Py.is_digit c then
        let (d, rest) := span_digits s' in (String c d, rest)
      else (EmptyString, s)
  | EmptyString => (EmptyString, s)
  end.

(** The match of [\d+(?:\.\d+)?] at the front of [s], greedy, and what
    follows it; the group is given up when no digit follows the point. *)
Definition match_numbers (s : string) : option (string * string) :=
  let (d, rest) := span_digits s in
  if String.eqb d EmptyString then None
  else
    match rest with
    | String "." rest' =>
        let (f, rest'') := span_digits rest' in
        if String.eqb f EmptyString then Some (d, rest)
        else Some (d ++ String "." f, rest'')
    | _ => Some (d, rest)
    end.

(** [findall]: the matches from left to right, none overlapping; the
    search resumes where the last match ended. *)
Fixpoint findall_fuel (fuel : nat) (s : string) : list string :=
  match fuel with
  | O => []
  | S fuel' =>
      match s with
      | EmptyString => []
      | String _ s' =>
          match match_numbers s with
          | Some (m, rest) => m :: findall_fuel fuel' rest
          | None => findall_fuel fuel' s'
          end
      end
  end.

Definition findall (s : string) : list string :=
  findall_fuel (S (String.length s)) s.

End Re.

(** * The form and its state *)

(** A row of the info table.  [calculate_strategy] appends the list object
    [self.target_value] itself, so that row is an alias: it reads whatever
    [self.target_value] holds when it is read.  Every other row is a list
    that only the table holds. *)
Inductive row : Set :=
  | Row (cells : list string)
  | TargetValueRow.

Record UiMainWindow : Set := mkUi {
  info_table : list row;
  (* [[-1]] stands for no data; the integer -1 of the source compares
     equal to the float -1.0 and no arithmetic is ever done on it *)
  current_balances : list float;
  target_value : list string;
  filename : string;
  entry_lineEdit : string;
  error_label : string;
  info_label : string;
  bonds_button : string;
  international_button : string;
  national_button : string;
  (* the application's clipboard, [cb] *)
  clipboard : string
}.

Definition set_info_table (v : list row) (st : UiMainWindow) : UiMainWindow :=
  mkUi v (current_balances st) (target_value st) (filename st)
    (entry_lineEdit st) (error_label st) (info_label st) (bonds_button st)
    (international_button st) (national_button st) (clipboard st).

Definition set_current_balances (v : list float) (st : UiMainWindow)
  : UiMainWindow :=
  mkUi (info_table st) v (target_value st) (filename st)
    (entry_lineEdit st) (error_label st) (info_label st) (bonds_button st)
    (international_button st) (national_button st) (clipboard st).

Definition set_target_value (v : list string) (st : UiMainWindow)
  : UiMainWindow :=
  mkUi (info_table st) (current_balances st) v (filename st)
    (entry_lineEdit st) (error_label st) (info_label st) (bonds_button st)
    (international_button st) (national_button st) (clipboard st).

Definition set_filename (v : string) (st : UiMainWindow) : UiMainWindow :=
  mkUi (info_table st) (current_balances st) (target_value st) v
    (entry_lineEdit st) (error_label st) (info_label st) (bonds_button st)
    (international_button st) (national_button st) (clipboard st).

Definition set_error_label (v : string) (st : UiMainWindow) : UiMainWindow :=
  mkUi (info_table st) (current_balances st) (target_value st) (filename st)
    (entry_lineEdit st) v (info_label st) (bonds_button st)
    (international_button st) (national_button st) (clipboard st).

Definition set_info_label (v : string) (st : UiMainWindow) : UiMainWindow :=
  mkUi (info_table st) (current_balances st) (target_value st) (filename st)
    (entry_lineEdit st) (error_label st) v (bonds_button st)
    (international_button st) (national_button st) (clipboard st).

Definition set_bonds_button (v : string) (st : UiMainWindow) : UiMainWindow :=
  mkUi (info_table st) (current_balances st) (target_value st) (filename st)
    (entry_lineEdit st) (error_label st) (info_label st) v
    (international_button st) (national_button st) (clipboard st).

Definition set_international_button (v : string) (st : UiMainWindow)
  : UiMainWindow :=
  mkUi (info_table st) (current_balances st) (target_value st) (filename st)
    (entry_lineEdit st) (error_label st) (info_label st) (bonds_button st)
    v (national_button st) (clipboard st).

Definition set_national_button (v : string) (st : UiMainWindow)
  : UiMainWindow :=
  mkUi (info_table st) (current_balances st) (target_value st) (filename st)
    (entry_lineEdit st) (error_label st) (info_label st) (bonds_button st)
    (international_button st) v (clipboard st).


(** ** Methods: state and exceptions *)

Definition M (A : Type) : Type := UiMainWindow -> (Py.exn + A) * UiMainWindow.

Definition ret {A} (a : A) : M A := fun st => (inr a, st).

Definition raise {A} (e : Py.exn) : M A := fun st => (inl e, st).

Definition bind {A B} (m : M A) (k : A -> M B) : M B :=
  fun st =>
    match m st with
    | (inr a, st') => k a st'
    | (inl e, st') => (inl e, st')
    end.

Definition get : M UiMainWindow := fun st => (inr st, st).

Definition modify (f : UiMainWindow -> UiMainWindow) : M unit :=
  fun st => (inr tt, f st).

(** The result of a built-in that may raise. *)
Definition lift {A} (r : Py.exn + A) : M A :=
  match r with
  | inl e => raise e
  | inr a => ret a
  end.

(** [l[i]] for [0 <= i] *)
Definition index {A} (l : list A) (i : nat) : M A :=
  match nth_error l i with
  | Some a => ret a
  | None => raise Py.IndexError
  end.

Declare Scope method_scope.
Delimit Scope method_scope with method.
Notation "x <- m ;; k" := (bind m (fun x => k))
  (at level 61, m at next level, right associativity) : method_scope.
Notation "m ;; k" := (bind m (fun _ => k))
  (at level 61, right associativity) : method_scope.

(** [for x in l: acc = body(acc, x)] *)
Fixpoint for_each {A B} (l : list A) (body : B -> A -> M B) (acc : B) : M B :=
  match l with
  | [] => ret acc
  | x :: l' => bind (body acc x) (for_each l' body)
  end.

Local Open Scope string_scope.
Local Open Scope method_scope.

Definition nl : string := String (ascii_of_nat 10) EmptyString.

(** What a row holds when it is read in state [st]. *)
Definition cells (st : UiMainWindow) (r : row) : list string :=
  match r with
  | Row l => l
  | TargetValueRow => target_value st
  end.

(** [self.info_table[i][j]] *)
Definition table_cell (i j : nat) : M string :=
  st <- get ;;
  r <- index (info_table st) i ;;
  index (cells st r) j.

(** [self.current_balances[i]] *)
Definition balance (i : nat) : M float :=
  st <- get ;;
  index (current_balances st) i.

(** [a / b] on floats: Python raises when the divisor is zero of either sign. *)
Definition divide (a b : float) : M float :=
  if (b =? 0)%float then raise Py.ZeroDivisionError else ret (a / b)%float.

Definition append_row (r : row) : M unit :=
  modify (fun st => set_info_table (info_table st ++ [r])%list st).

(** ** [__init__]: the attributes before any event *)
Definition init : UiMainWindow :=
  mkUi [] [(-1)%float] [] "" "" "" "" "" "" "" "".

(** ** [buy_or_sell] (lines 30-48) *)

(** [.95 < actual_vs_target_ratio < 1.05] *)
Definition within_tolerance (ratio : float) : bool :=
  (0.95 <? ratio)%float && (ratio <? 1.05)%float.

(** The test of line 37.  [and] evaluates [int(money_to_invest)] only when
    the ratio is within the tolerance. *)
Definition looks_good (ratio money_to_invest : float) : Py.exn + bool :=
  if within_tolerance ratio then
    match Py.int money_to_invest with
    | inr n => inr (n =? 0)%Z
    | inl e => inl e
    end
  else inr false.

Definition buy_or_sell
  (percentage total current money_to_invest : float) (key : nat) : M string :=
  let target := (total * percentage)%float in
  actual_vs_target_ratio <- divide target current ;;
  hold <- lift (looks_good actual_vs_target_ratio money_to_invest) ;;
  let s :=
    if hold then "Looks good for "
    else
      let amount_to_trade := Py.str (Py.round (abs (current - target)) 2) in
      (if (1.0 <? actual_vs_target_ratio)%float then "Buy " else "Sell ")
        ++ "$" ++ amount_to_trade ++ " " in
  modify (fun st =>
    set_target_value (target_value st ++ [Py.str (Py.round target 2)])%list st) ;;
  name <- table_cell 1 key ;;
  ret (s ++ name).

(** ** [scrape_values_from_csv] (lines 51-72) *)

Definition header : list string :=
  ["Symbol"; "Current Value"; "Current Allocation"; "Target value";
   "Target Allocation"].

(** The rows [csv.reader] yields for a file. *)
Definition csv_rows : Set := list (list string).

(** [float(s)] as a method. *)
Definition to_float (s : string) : M float :=
  match Py.float s with
  | Some x => ret x
  | None => raise Py.ValueError
  end.

(** One turn of the loop of lines 67-70, over the two local lists. *)
Definition scrape_row (csv_list : csv_rows)
  (temps : list string * list string) (i : nat)
  : M (list string * list string) :=
  let (temp_names, temp_balances) := temps in
  r <- index csv_list i ;;
  value <- index r 6 ;;
  let temp_balances := (temp_balances ++ [value])%list in
  b <- index temp_balances (i - 2) ;;
  x <- to_float (Py.remove_char "$" b) ;;
  modify (fun st => set_current_balances (current_balances st ++ [x])%list st) ;;
  r' <- index csv_list i ;;
  name <- index r' 1 ;;
  ret ((temp_names ++ [name])%list, temp_balances).

(** [disk name] is what opening and reading the file [name] gives: [None]
    when [open] or the reader raises, the rows otherwise. *)
Definition scrape_values_from_csv (disk : string -> option csv_rows) : M unit :=
  modify (set_current_balances []) ;;
  st <- get ;;
  match disk (filename st) with
  | None => modify (set_current_balances [(-1)%float])
  | Some csv_list =>
      modify (set_info_table [Row header]) ;;
      temps <- for_each [2; 3; 4]%nat (scrape_row csv_list) ([], []) ;;
      append_row (Row (fst temps)) ;;
      append_row (Row (snd temps))
  end.

(** ** [calculate_strategy] (lines 75-133) *)

(** The chain of lines 79-114. *)
Definition glide_path (filename : string) : float * float * float :=
  if Py.contains "2020" filename then (0.2, 0.3, 0.5)%float
  else if Py.contains "2030" filename then (0.3, 0.27, 0.43)%float
  else if Py.contains "2040" filename then (0.4, 0.23, 0.37)%float
  else if Py.contains "2050" filename then (0.5, 0.19, 0.31)%float
  else if Py.contains "2060" filename then (0.6, 0.15, 0.25)%float
  else if Py.contains "2070" filename then (0.7, 0.11, 0.19)%float
  else if Py.contains "2080" filename then (0.8, 0.08, 0.12)%float
  else if Py.contains "2090" filename then (0.9, 0.04, 0.06)%float
  else (1.0, 0.0, 0.0)%float.

(** A cell of the current-allocation row (lines 128-130). *)
Definition allocation (i : nat) (total_amount money_to_invest : float)
  : M string :=
  c <- balance i ;;
  q <- divide (100 * c) (total_amount - money_to_invest) ;;
  ret (Py.str (Py.round q 2) ++ "%").

Definition calculate_strategy (money_to_invest : float) : M unit :=
  st <- get ;;
  let '(bond_percentage, international_index_percentage,
        national_index_percentage) := glide_path (filename st) in
  let total_amount := (money_to_invest + Py.sum (current_balances st))%float in
  modify (set_target_value []) ;;
  c0 <- balance 0 ;;
  s0 <- buy_or_sell bond_percentage total_amount c0 money_to_invest 0 ;;
  modify (set_bonds_button s0) ;;
  c1 <- balance 1 ;;
  s1 <- buy_or_sell international_index_percentage total_amount c1
          money_to_invest 1 ;;
  modify (set_international_button s1) ;;
  c2 <- balance 2 ;;
  s2 <- buy_or_sell national_index_percentage total_amount c2
          money_to_invest 2 ;;
  modify (set_national_button s2) ;;
  a0 <- allocation 0 total_amount money_to_invest ;;
  a1 <- allocation 1 total_amount money_to_invest ;;
  a2 <- allocation 2 total_amount money_to_invest ;;
  append_row (Row [a0; a1; a2]) ;;
  append_row TargetValueRow ;;
  append_row (Row [Py.str (100 * bond_percentage) ++ "%";
                   Py.str (100 * international_index_percentage) ++ "%";
                   Py.str (100 * national_index_percentage) ++ "%"]).

(** ** [csv_file_error] (lines 302-303) *)
Definition csv_file_error : M unit :=
  modify (set_error_label "you did not enter a csv file").

(** [self.current_balances == [-1]] *)
Definition no_data (balances : list float) : bool :=
  match balances with
  | [x] => (x =? -1)%float
  | _ => false
  end.

(** ** [open_csv] (lines 252-260); [chosen] is what the file dialog returns *)
Definition open_csv (disk : string -> option csv_rows) (chosen : string)
  : M unit :=
  modify (set_filename chosen) ;;
  scrape_values_from_csv disk ;;
  st <- get ;;
  if no_data (current_balances st) then csv_file_error
  else modify (set_error_label (filename st)).

(** ** [calculate] (lines 263-289) *)

(** ["{:20}|".format(str(cell).ljust(15))] *)
Definition format_cell (cell : string) : string :=
  Py.ljust 20 (Py.ljust 15 cell) ++ "|".

(** The text of lines 276-284. *)
Definition table_text : M string :=
  st <- get ;;
  r0 <- index (info_table st) 0 ;;
  s <- for_each (seq 0 (List.length (cells st r0)))
         (fun s i => c <- table_cell 0 i ;; ret (s ++ format_cell c))
         ("Values From CSV: " ++ nl ++ nl ++ "|") ;;
  n <- lift (Py.int
         (Py.nearest_float false (Z.of_nat (String.length s)) 1 * 0.85)%float) ;;
  let s := s ++ nl ++ Py.repeat_char "-" (Z.to_nat n) in
  r1 <- index (info_table st) 1 ;;
  s <- for_each (seq 0 (List.length (cells st r1)))
         (fun s i =>
            for_each (seq 1 (List.length (info_table st) - 1))
              (fun s j => c <- table_cell j i ;; ret (s ++ format_cell c))
              (s ++ nl ++ "|"))
         s ;;
  ret (s ++ nl).

Fixpoint list_eqb {A} (eqb : A -> A -> bool) (l1 l2 : list A) : bool :=
  match l1, l2 with
  | [], [] => true
  | x :: l1', y :: l2' => eqb x y && list_eqb eqb l1' l2'
  | _, _ => false
  end.

(** [r1 == r2] on two rows: their cells, compared as strings. *)
Definition row_eqb (st : UiMainWindow) (r1 r2 : row) : bool :=
  list_eqb String.eqb (cells st r1) (cells st r2).

(** [l.remove(x)]: the list without its first element equal to [x]. *)
Fixpoint remove_first {A} (eq_x : A -> bool) (l : list A) : option (list A) :=
  match l with
  | [] => None
  | y :: l' =>
      if eq_x y then Some l'
      else option_map (cons y) (remove_first eq_x l')
  end.

(** Line 287: [self.info_table.remove(self.info_table[len(self.info_table) - 1])] *)
Definition remove_last_row : M unit :=
  st <- get ;;
  let t := info_table st in
  last <- match List.length t with
          | O => raise Py.IndexError
          | S n => index t n
          end ;;
  match remove_first (row_eqb st last) t with
  | Some t' => modify (set_info_table t')
  | None => raise Py.ValueError
  end.

(** Lines 272-289, once the amount is known. *)
Definition calculate_with (amount_to_invest : float) : M unit :=
  st <- get ;;
  if negb (no_data (current_balances st)) then
    calculate_strategy amount_to_invest ;;
    modify (set_error_label "Strategy Calculated") ;;
    s <- table_text ;;
    modify (set_info_label s) ;;
    for_each [0; 1; 2]%nat (fun _ _ => remove_last_row) tt
  else csv_file_error.

Definition calculate : M unit :=
  st <- get ;;
  let text := entry_lineEdit st in
  match Py.float text with
  | Some amount_to_invest => calculate_with amount_to_invest
  | None =>
      if String.eqb text "" then calculate_with 0%float
      else modify (set_error_label "You did not enter a valid amount")
  end.

(** ** The copy methods (lines 292-299) *)

(** [''.join(self.numbers.findall(text))], with [self.numbers] the pattern
    [\d+(?:\.\d+)?] of line 140. *)
Definition numbers : Re.regex :=
  Re.Seq (Re.Plus Re.Digit)
         (Re.Opt (Re.Seq (Re.Chr ".") (Re.Plus Re.Digit))).

Definition copied (text : string) : string := Py.join (Re.findall text).




(** * Definitions the statements are written with *)

(** The texts [buy_or_sell] puts on a button. *)
Definition hold_text (name : string) : string := "Looks good for " ++ name.

Definition buy_text (amount name : string) : string :=
  "Buy $" ++ amount ++ " " ++ name.

Definition sell_text (amount name : string) : string :=
  "Sell $" ++ amount ++ " " ++ name.

(** The state after line 46 of [buy_or_sell]. *)
Definition record_target (target : float) (st : UiMainWindow) : UiMainWindow :=
  set_target_value (target_value st ++ [Py.str (Py.round target 2)])%list st.

(** [tok] occurs in [s]. *)
Definition occurs_in (tok s : string) : Prop :=
  exists pre post, s = pre ++ tok ++ post.

(** The glide paths as a table, in the order the selector tries them. *)
Definition glide_table : list (string * (float * float * float)) :=
  [("2020", (0.2, 0.3, 0.5)); ("2030", (0.3, 0.27, 0.43));
   ("2040", (0.4, 0.23, 0.37)); ("2050", (0.5, 0.19, 0.31));
   ("2060", (0.6, 0.15, 0.25)); ("2070", (0.7, 0.11, 0.19));
   ("2080", (0.8, 0.08, 0.12)); ("2090", (0.9, 0.04, 0.06))]%float.

Definition all_bonds : float * float * float := (1.0, 0.0, 0.0)%float.

(** The triple of the first token of [table] found in [label], the
    all-bonds triple when there is none. *)
Fixpoint first_match (table : list (string * (float * float * float)))
  (label : string) : float * float * float :=
  match table with
  | [] => all_bonds
  | (tok, triple) :: table' =>
      if Py.contains tok label then triple else first_match table' label
  end.

(** [n / 100] as Python reads the literal: the nearest float. *)
Definition percent (n : Z) : float := Py.nearest_float false n 100.

(** A triple adds up to one, as floats from left to right, and its members
    are whole hundredths that add up to a hundred. *)
Definition sums_to_one (triple : float * float * float) : Prop :=
  let '(b, i, n) := triple in
  (b + i + n)%float = 1%float /\
  exists hb hi hn : Z,
    (hb + hi + hn = 100)%Z /\
    b = percent hb /\ i = percent hi /\ n = percent hn.

(** Neither a number nor finite: what [int] refuses. *)
Definition non_finite (x : float) : bool :=
  match Prim2SF x with
  | S754_nan | S754_infinity _ => true
  | _ => false
  end.

(** The rows of the table by value. *)
Definition table_values (st : UiMainWindow) : list (list string) :=
  map (cells st) (info_table st).

(** The recommendation as the specification words it: hold exactly when
    the ratio is within the tolerance and the new money is zero. *)
Definition hold_when_no_new_money (ratio money_to_invest : float) : bool :=
  within_tolerance ratio && (money_to_invest =? 0)%float.

(** ** Sample data *)

(** A line of a positions file: symbol in column 1, value in column 6. *)
Definition position (symbol value : string) : list string :=
  ["X12345678"; symbol; "FUND"; "10"; "1.00"; "+0.00"; value].

Definition csv_heading : list string :=
  ["Account"; "Symbol"; "Description"; "Quantity"; "Last Price"; "Change";
   "Current Value"].

(** A Fidelity export: a hundred dollars in each of the three funds. *)
Definition even_positions : csv_rows :=
  [csv_heading; position "SPAXX" "$5.00"; position "FXNAX" "$100.00";
   position "FZILX" "$100.00"; position "FZROX" "$100.00"; []].

(** A file with the heading and three positions only. *)
Definition short_positions : csv_rows :=
  [csv_heading; position "SPAXX" "$5.00"; position "FXNAX" "$60.00";
   position "FZILX" "$90.00"].

(** A file whose values carry no dollar sign and sit at their targets to
    the cent. *)
Definition on_target_positions : csv_rows :=
  [csv_heading; position "SPAXX" "5.0"; position "FXNAX" "10.0";
   position "FZILX" "15.0"; position "FZROX" "25.01"; []].

Definition sample_disk (name : string) : option csv_rows :=
  if String.eqb name "Portfolio_2020.csv" then Some even_positions
  else if String.eqb name "Short_2020.csv" then Some short_positions
  else if String.eqb name "Target_2020.csv" then Some on_target_positions
  else if String.eqb name "Empty_2020.csv" then Some []
  else None.

(** The state a method leaves, and its outcome. *)
Definition state_after {A} (m : M A) (st : UiMainWindow) : UiMainWindow :=
  snd (m st).

Definition outcome {A} (m : M A) (st : UiMainWindow) : Py.exn + A :=
  fst (m st).

(** The form after [Portfolio_2020.csv] was opened. *)
Definition loaded_even : UiMainWindow :=
  state_after (open_csv sample_disk "Portfolio_2020.csv") init.

(** The form after [Target_2020.csv] was opened. *)
Definition loaded_on_target : UiMainWindow :=
  state_after (open_csv sample_disk "Target_2020.csv") init.

(** The user typed [text] into the amount field. *)
Definition type_amount (text : string) (st : UiMainWindow) : UiMainWindow :=
  mkUi (info_table st) (current_balances st) (target_value st) (filename st)
    text (error_label st) (info_label st) (bonds_button st)
    (international_button st) (national_button st) (clipboard st).

Definition starts_with_digit (s : string) : bool :=
  match s with
  | String c _ => Py.is_digit c
  | EmptyString => false
  end.


(** A Fidelity export with nothing in the international fund. *)
Definition empty_fund_positions : csv_rows :=
  [csv_heading; position "SPAXX" "$5.00"; position "FXNAX" "$100.00";
   position "FZILX" "$0.00"; position "FZROX" "$100.00"; []].

Definition loaded_empty_fund : UiMainWindow :=
  state_after
    (open_csv (fun _ => Some empty_fund_positions) "Roth_2050.csv") init.

(** A Fidelity export with the three funds at their 2020 targets. *)
Definition balanced_positions : csv_rows :=
  [csv_heading; position "SPAXX" "$5.00"; position "FXNAX" "$60.00";
   position "FZILX" "$90.00"; position "FZROX" "$150.00"; []].

(** The form once [balanced_positions] was read from a file of 2020. *)
Definition loaded_balanced : UiMainWindow :=
  state_after
    (open_csv (fun _ => Some balanced_positions) "Balanced_2020.csv") init.

(** The rule as the specification words it, for one call of [buy_or_sell]:
    the button holds exactly when the ratio is within the tolerance and the
    new money is zero. *)
Definition holds_iff_no_new_money
  (percentage total current money_to_invest : float) (key : nat)
  (st : UiMainWindow) (name : string) : Prop :=
  outcome (buy_or_sell percentage total current money_to_invest key) st
    = inr (hold_text name)
  <-> hold_when_no_new_money (total * percentage / current) money_to_invest
      = true.

(** A method that only reads the form. *)
Definition read_only {A} (m : M A) : Prop :=
  forall st, snd (m st) = st.

(** Every character of [s] satisfies [p]. *)
Fixpoint string_forallb (p : ascii -> bool) (s : string) : bool :=
  match s with
  | EmptyString => true
  | String c s' => p c && string_forallb p s'
  end.

(** A text of ASCII characters, the texts the model of [str] covers. *)
Definition ascii_text (s : string) : bool :=
  string_forallb (fun c => (nat_of_ascii c <? 128)%nat) s.

Definition all_digits (s : string) : bool := string_forallb Py.is_digit s.

Definition no_digit (s : string) : bool :=
  string_forallb (fun c => negb (Py.is_digit c)) s.

(** The characters a text that [float] accepts can be made of. *)
Definition number_char (c : ascii) : bool :=
  Py.is_digit c || Py.is_space c
  || existsb (Ascii.eqb c) (list_ascii_of_string "+-._eEinfatyINFATY").

(** The letters of [inf], [infinity] and [nan]. *)
Definition word_letter (c : ascii) : bool :=
  existsb (Ascii.eqb c) (list_ascii_of_string "infaty").

(** * Facts *)

(** * Strings *)

Lemma append_empty_r (s : string) : s ++ "" = s.
Proof. induction s as [|c s IH]; simpl; [reflexivity | now rewrite IH]. Qed.

Lemma append_assoc (a b c : string) : (a ++ b) ++ c = a ++ b ++ c.
Proof. induction a as [|x a IH]; simpl; [reflexivity | now rewrite IH]. Qed.

Lemma prefix_occurs (p s : string) :
  prefix p s = true <-> exists post, s = p ++ post.
Proof.
  revert s; induction p as [|c p IH]; intros s; simpl.
  - split; [intros _; now exists s | intros _; now destruct s].
  - destruct s as [|d s]; simpl;
      [split; [discriminate | intros [post H]; discriminate]|].
    destruct (ascii_dec c d) as [->|Hne].
    + rewrite IH. split; intros [post H]; exists post; [now rewrite H | now inversion H].
    + split; [discriminate | intros [post H]; inversion H; congruence].
Qed.

Lemma contains_unfold (tok s : string) :
  Py.contains tok s =
  if prefix tok s then true
  else match s with
       | EmptyString => false
       | String _ s' => Py.contains tok s'
       end.
Proof. destruct s; reflexivity. Qed.

Lemma contains_occurs (tok s : string) :
  Py.contains tok s = true <-> occurs_in tok s.
Proof.
  unfold occurs_in. induction s as [|c s IH]; rewrite contains_unfold.
  - destruct (prefix tok "") eqn:Hp.
    + split; [intros _ | reflexivity].
      apply prefix_occurs in Hp as [post H]. now exists "", post.
    + split; [discriminate | intros (pre & post & H)].
      destruct pre; simpl in H; [|discriminate].
      assert (prefix tok "" = true) by (apply prefix_occurs; now exists post).
      congruence.
  - destruct (prefix tok (String c s)) eqn:Hp.
    + split; [intros _ | reflexivity].
      apply prefix_occurs in Hp as [post H]. now exists "", post.
    + rewrite IH. split.
      * intros (pre & post & H). exists (String c pre), post. simpl. now rewrite H.
      * intros (pre & post & H). destruct pre as [|d pre]; simpl in H.
        -- assert (prefix tok (String c s) = true)
             by (apply prefix_occurs; now exists post).
           congruence.
        -- inversion H. now exists pre, post.
Qed.

(** * The glide path *)

Lemma glide_path_first_match (f : string) :
  glide_path f = first_match glide_table f.
Proof. reflexivity. Qed.

Lemma first_match_none (table : list (string * (float * float * float)))
  (label : string) :
  (forall tok, In tok (map fst table) -> ~ occurs_in tok label) ->
  first_match table label = all_bonds.
Proof.
  induction table as [|[tok triple] table IH]; intros H; simpl; [reflexivity|].
  destruct (Py.contains tok label) eqn:Hc.
  - apply contains_occurs in Hc. exfalso. apply (H tok); [now left | exact Hc].
  - apply IH. intros tok' Hin. apply H. now right.
Qed.

(** C5: the selector goes through the tokens 2020, 2030, ..., 2090 in that
    order, tests each for occurrence in the file name and takes the triple
    of the first one found; a file name in which none of them occurs gets
    the all-bonds triple (1.0, 0.0, 0.0). *)
Theorem glide_path_selection (f : string) :
  map fst glide_table =
    ["2020"; "2030"; "2040"; "2050"; "2060"; "2070"; "2080"; "2090"] /\
  (forall before tok triple after,
      glide_table = (before ++ (tok, triple) :: after)%list ->
      occurs_in tok f ->
      (forall tok', In tok' (map fst before) -> ~ occurs_in tok' f) ->
      glide_path f = triple) /\
  ((forall tok, In tok (map fst glide_table) -> ~ occurs_in tok f) ->
   glide_path f = (1.0, 0.0, 0.0)%float).
Proof.
  split; [reflexivity|]. split.
  - intros before tok triple after Htab Hocc Hnone.
    rewrite glide_path_first_match, Htab. clear Htab.
    induction before as [|[tok0 triple0] before IH]; simpl.
    + apply contains_occurs in Hocc. now rewrite Hocc.
    + destruct (Py.contains tok0 f) eqn:Hc.
      * apply contains_occurs in Hc. exfalso. apply (Hnone tok0); [now left | exact Hc].
      * apply IH. intros tok' Hin. apply Hnone. now right.
  - intros Hnone. rewrite glide_path_first_match. now apply first_match_none.
Qed.

Lemma no_year_in_positions_csv (tok : string) :
  In tok (map fst glide_table) -> ~ occurs_in tok "positions.csv".
Proof.
  intros Hin Hocc. apply contains_occurs in Hocc.
  simpl in Hin.
  repeat (destruct Hin as [<- | Hin]; [vm_compute in Hocc; discriminate|]).
  destruct Hin.
Qed.

Lemma glide_path_selection_witness :
  glide_path "Plan_2040_2030.csv" = (0.3, 0.27, 0.43)%float /\
  glide_path "positions.csv" = (1.0, 0.0, 0.0)%float.
Proof.
  split.
  - apply (proj1 (proj2 (glide_path_selection "Plan_2040_2030.csv"))
             [("2020", (0.2, 0.3, 0.5)%float)] "2030" (0.3, 0.27, 0.43)%float
             (tl (tl glide_table))).
    + reflexivity.
    + apply contains_occurs. vm_compute. reflexivity.
    + intros tok [<- | []] Hocc. apply contains_occurs in Hocc.
      vm_compute in Hocc. discriminate.
  - apply (proj2 (proj2 (glide_path_selection "positions.csv"))).
    exact no_year_in_positions_csv.
Defined.

(** C4: for every file name the selected triple adds up to exactly 1.0, as
    floats added from left to right, and its members are the floats of
    whole hundredths that add up to 100; so do each of the eight enumerated
    triples and the all-bonds default. *)
Theorem glide_path_sums_to_one (f : string) :
  sums_to_one (glide_path f) /\
  Forall (fun entry => sums_to_one (snd entry)) glide_table /\
  sums_to_one all_bonds.
Proof.
  assert (Htab : Forall (fun entry => sums_to_one (snd entry)) glide_table).
  { unfold glide_table. repeat constructor; simpl.
    all: [> exists 20%Z, 30%Z, 50%Z | exists 30%Z, 27%Z, 43%Z
          | exists 40%Z, 23%Z, 37%Z | exists 50%Z, 19%Z, 31%Z
          | exists 60%Z, 15%Z, 25%Z | exists 70%Z, 11%Z, 19%Z
          | exists 80%Z, 8%Z, 12%Z | exists 90%Z, 4%Z, 6%Z ];
      repeat split; reflexivity. }
  assert (Hdef : sums_to_one all_bonds).
  { split; [reflexivity|]. exists 100%Z, 0%Z, 0%Z. repeat split; reflexivity. }
  split; [|split; assumption].
  rewrite glide_path_first_match.
  induction Htab as [|[tok triple] table Hhead _ IH]; simpl; [exact Hdef|].
  destruct (Py.contains tok f); [exact Hhead | exact IH].
Qed.

Lemma length_append (a b : string) :
  String.length (a ++ b) = String.length a + String.length b.
Proof. induction a as [|x a IH]; simpl; [reflexivity | now rewrite IH]. Qed.

(** * The pattern of [self.numbers] *)

Lemma span_digits_split (s d rest : string) :
  Re.span_digits s = (d, rest) -> s = d ++ rest.
Proof.
  revert d rest; induction s as [|c s IH]; simpl; intros d rest H.
  - now inversion H.
  - destruct (Py.is_digit c).
    + destruct (Re.span_digits s) as [d' rest'] eqn:Hs.
      inversion H; subst. simpl. f_equal. now apply IH.
    + now inversion H.
Qed.

Lemma span_digits_matches (s d rest : string) :
  Re.span_digits s = (d, rest) -> d <> "" ->
  Re.matches (Re.Plus Re.Digit) d.
Proof.
  revert d rest; induction s as [|c s IH]; simpl; intros d rest H Hne.
  - inversion H; subst. contradiction.
  - destruct (Py.is_digit c) eqn:Hc.
    + destruct (Re.span_digits s) as [d' rest'] eqn:Hs.
      inversion H; subst.
      destruct d' as [|c' d'].
      * apply Re.m_plus_one. now apply Re.m_digit.
      * change (String c (String c' d')) with (String c "" ++ String c' d').
        apply Re.m_plus_more; [now apply Re.m_digit|].
        apply (IH _ _ eq_refl). discriminate.
    + inversion H; subst. contradiction.
Qed.

Lemma eqb_empty_false (s : string) : (s =? "") = false -> s <> "".
Proof. intros H ->. discriminate. Qed.

Lemma match_numbers_sound (s m rest : string) :
  Re.match_numbers s = Some (m, rest) ->
  Re.matches numbers m /\ s = m ++ rest /\ m <> "".
Proof.
  unfold Re.match_numbers, numbers.
  destruct (Re.span_digits s) as [d r] eqn:Hd.
  destruct (d =? "") eqn:Hde; [discriminate|].
  apply eqb_empty_false in Hde.
  pose proof (span_digits_split _ _ _ Hd) as Hs.
  pose proof (span_digits_matches _ _ _ Hd Hde) as Hm.
  assert (Hplain : Re.matches numbers d).
  { rewrite <- (append_empty_r d). apply Re.m_seq; [exact Hm | apply Re.m_opt_none]. }
  destruct r as [|c r]; [intros H; inversion H; subst; auto|].
  destruct (Ascii.eqb c ".") eqn:Hc.
  - apply Ascii.eqb_eq in Hc; subst c.
    destruct (Re.span_digits r) as [f r'] eqn:Hf.
    destruct (f =? "") eqn:Hfe; intros H; inversion H; subst; [auto|].
    apply eqb_empty_false in Hfe.
    pose proof (span_digits_split _ _ _ Hf) as Hs'.
    pose proof (span_digits_matches _ _ _ Hf Hfe) as Hm'.
    repeat split.
    + apply Re.m_seq; [exact Hm|]. apply Re.m_opt_some.
      change (String "." f) with (String "." "" ++ f).
      apply Re.m_seq; [apply Re.m_chr | exact Hm'].
    + rewrite append_assoc. simpl. now rewrite <- Hs'.
    + destruct d; [contradiction | discriminate].
  - assert (Hother :
      match c with
      | "."%char =>
          let (f, rest'') := Re.span_digits r in
          if f =? "" then Some (d, String c r) else Some (d ++ String "." f, rest'')
      | _ => Some (d, String c r)
      end = Some (d, String c r)).
    { destruct c as [[] [] [] [] [] [] [] []]; try reflexivity. discriminate Hc. }
    rewrite Hother. intros H; inversion H; subst; auto.
Qed.





(** The fuel of [findall] never runs out: more of it changes nothing. *)
Lemma findall_fuel_enough (fuel : nat) (s : string) :
  String.length s < fuel ->
  Re.findall_fuel fuel s = Re.findall s.
Proof.
  unfold Re.findall.
  assert (H : forall n s, String.length s < n ->
            forall k, String.length s < k ->
            Re.findall_fuel n s = Re.findall_fuel k s).
  { induction n as [|n IH]; intros s' Hn k Hk; [lia|].
    destruct k as [|k]; [lia|]. simpl.
    destruct s' as [|c s']; [reflexivity|].
    destruct (Re.match_numbers (String c s')) as [[m rest]|] eqn:Hm.
    - apply match_numbers_sound in Hm as (_ & Hsplit & Hne).
      assert (String.length rest < String.length (String c s')).
      { rewrite Hsplit, length_append. destruct m; [contradiction | simpl; lia]. }
      f_equal. apply IH; lia.
    - simpl in Hn, Hk. apply IH; lia. }
  intros Hlt. apply H; [exact Hlt | lia].
Qed.


(** * Floats *)

Lemma SFabs_binary_round_aux (s s' : bool) (m e : Z) (l : location) :
  SFabs (binary_round_aux prec emax s m e l)
  = SFabs (binary_round_aux prec emax s' m e l).
Proof.
  unfold binary_round_aux.
  destruct (shr_fexp prec emax m e l) as [mrs e1].
  destruct (shr_fexp prec emax _ e1 loc_Exact) as [mrs' e2].
  destruct (shr_m mrs'); try reflexivity.
  destruct (e2 <=? emax - prec)%Z; reflexivity.
Qed.

Lemma SFabs_binary_normalize_opp (m e : Z) :
  SFabs (binary_normalize prec emax m e false)
  = SFabs (binary_normalize prec emax (- m) e false).
Proof.
  unfold binary_normalize, binary_round.
  destruct m as [|p|p]; simpl; try reflexivity;
    destruct (shl_align p e _); apply SFabs_binary_round_aux.
Qed.

(** |a - b| = |b - a| on floats, bit for bit. *)
Lemma abs_sub_comm (a b : float) : abs (a - b) = abs (b - a).
Proof.
  apply Prim2SF_inj. rewrite !abs_spec, !sub_spec.
  unfold SF64sub, SFsub.
  destruct (Prim2SF a) as [sa|sa| |sa ma ea], (Prim2SF b) as [sb|sb| |sb mb eb];
    try reflexivity;
    try (destruct sa, sb; reflexivity).
  rewrite (Z.min_comm eb ea).
  rewrite SFabs_binary_normalize_opp. f_equal. f_equal. lia.
Qed.

Lemma int_raises_non_finite (x : float) (e : Py.exn) :
  Py.int x = inl e -> non_finite x = true.
Proof.
  unfold Py.int, non_finite.
  destruct (Prim2SF x) as [s|s| |s m ex]; try reflexivity; try discriminate.
  destruct (Py.dyadic m ex); discriminate.
Qed.

Lemma add_non_finite (a b : float) :
  non_finite a = true -> non_finite (a + b) = true.
Proof.
  unfold non_finite. rewrite add_spec. unfold SF64add, SFadd.
  destruct (Prim2SF a) as [sa|sa| |sa ma ea]; try discriminate; intros _;
    destruct (Prim2SF b) as [sb|sb| |sb mb eb]; try reflexivity.
  destruct sa, sb; reflexivity.
Qed.

Lemma mul_non_finite (a b : float) :
  non_finite a = true -> non_finite (a * b) = true.
Proof.
  unfold non_finite. rewrite mul_spec. unfold SF64mul, SFmul.
  destruct (Prim2SF a) as [sa|sa| |sa ma ea]; try discriminate; intros _;
    destruct (Prim2SF b) as [sb|sb| |sb mb eb]; reflexivity.
Qed.

Lemma div_non_finite (a b : float) :
  non_finite a = true -> non_finite (a / b) = true.
Proof.
  unfold non_finite. rewrite div_spec. unfold SF64div, SFdiv.
  destruct (Prim2SF a) as [sa|sa| |sa ma ea]; try discriminate; intros _;
    destruct (Prim2SF b) as [sb|sb| |sb mb eb]; reflexivity.
Qed.

Lemma non_finite_outside_tolerance (r : float) :
  non_finite r = true -> within_tolerance r = false.
Proof.
  unfold non_finite, within_tolerance. rewrite !ltb_spec.
  destruct (Prim2SF r) as [s|s| |s m e]; try discriminate; intros _.
  - destruct s; [reflexivity|]. apply andb_false_r.
  - reflexivity.
Qed.

(** Within [calculate_strategy] the test of line 37 cannot raise: a new
    money that [int] refuses makes the ratio nan or infinite. *)
Lemma looks_good_total (m s p c : float) :
  exists hold, looks_good ((m + s) * p / c) m = inr hold.
Proof.
  unfold looks_good.
  destruct (within_tolerance ((m + s) * p / c)) eqn:Hw; [|now exists false].
  destruct (Py.int m) as [e|n] eqn:Hi; [|now eexists].
  apply int_raises_non_finite in Hi.
  rewrite non_finite_outside_tolerance in Hw; [discriminate|].
  now apply div_non_finite, mul_non_finite, add_non_finite.
Qed.

(** * Whole numbers of dollars *)

Lemma digits2_pos_lower (p : positive) :
  (2 ^ (Zpos (digits2_pos p) - 1) <= Zpos p)%Z.
Proof.
  induction p as [p IH|p IH|]; simpl digits2_pos; [| |simpl; lia].
  all: rewrite Pos2Z.inj_succ;
    replace (Z.succ (Zpos (digits2_pos p)) - 1)%Z
      with (Z.succ (Zpos (digits2_pos p) - 1))%Z by lia;
    rewrite Z.pow_succ_r by lia; lia.
Qed.

Lemma digits2_pos_upper (p : positive) :
  (Zpos p < 2 ^ Zpos (digits2_pos p))%Z.
Proof.
  induction p as [p IH|p IH|]; simpl digits2_pos; [| |simpl; lia].
  all: rewrite Pos2Z.inj_succ, Z.pow_succ_r by lia; lia.
Qed.

(** The mantissa of a binary64 value has at most 53 bits, and exactly 53
    unless the exponent is the least one. *)
Lemma valid_mantissa (s : bool) (m : positive) (e : Z) :
  valid_binary (S754_finite s m e) = true ->
  (Zpos m < 2 ^ 53)%Z /\ (-1074 <= e)%Z /\ (-1074 < e -> 2 ^ 52 <= Zpos m)%Z.
Proof.
  unfold valid_binary, SpecFloat.valid_binary, bounded, canonical_mantissa,
    fexp, emin, prec, emax.
  intros H. apply andb_prop in H as [H _]. apply Z.eqb_eq in H.
  pose proof (digits2_pos_lower m) as Hlo.
  pose proof (digits2_pos_upper m) as Hup.
  assert (Hd : (Zpos (digits2_pos m) <= 53)%Z) by lia.
  repeat split.
  - apply Z.lt_le_trans with (1 := Hup). apply Z.pow_le_mono_r; lia.
  - lia.
  - intros He. assert (Zpos (digits2_pos m) = 53)%Z by lia.
    replace 52%Z with (Zpos (digits2_pos m) - 1)%Z by lia. exact Hlo.
Qed.

(** A dollar or more of new money does not truncate to zero. *)
Lemma dyadic_at_least_one (mm : positive) (e num den : Z) :
  (2 ^ 52 <= Zpos mm)%Z -> (-52 <= e)%Z ->
  Py.dyadic mm e = (num, den) -> (num / den <> 0)%Z.
Proof.
  intros Hnorm He. unfold Py.dyadic. destruct (0 <=? e)%Z eqn:H0.
  - apply Z.leb_le in H0.
    assert (0 < 2 ^ e)%Z by (apply Z.pow_pos_nonneg; lia).
    intros Heq.
    assert (Hn : num = (Zpos mm * 2 ^ e)%Z) by congruence.
    assert (Hd : den = 1%Z) by congruence.
    rewrite Hn, Hd, Z.div_1_r.
    intros Hz. apply Z.mul_eq_0 in Hz. lia.
  - apply Z.leb_gt in H0.
    assert (Hpow : (0 < 2 ^ (- e) <= 2 ^ 52)%Z)
      by (split; [apply Z.pow_pos_nonneg | apply Z.pow_le_mono_r]; lia).
    intros Heq; injection Heq as <- <-.
    intros Hz. apply Z.div_small_iff in Hz; lia.
Qed.

Lemma int_at_least_one (m : float) :
  (1 <=? m)%float = true -> Py.int m <> inr 0%Z.
Proof.
  rewrite leb_spec. unfold Py.int.
  pose proof (Prim2SF_valid m) as Hv.
  change (Prim2SF 1) with (S754_finite false 4503599627370496 (-52)).
  destruct (Prim2SF m) as [s|s| |s mm e]; try discriminate.
  destruct s; [discriminate|].
  apply valid_mantissa in Hv as (Hup & Hmin & Hnorm).
  unfold SFleb, SFcompare.
  destruct (Z.compare_spec (-52) e) as [He|He|He]; try discriminate; intros _;
    destruct (Py.dyadic mm e) as [num den] eqn:Hd;
    (apply dyadic_at_least_one in Hd; [|lia|lia]);
    intros Hz; injection Hz as Hz; contradiction.
Qed.

(** Less than a dollar of new money truncates to zero. *)
Lemma int_below_one (m : float) :
  (0 <=? m)%float = true -> (m <? 1)%float = true -> Py.int m = inr 0%Z.
Proof.
  rewrite leb_spec, ltb_spec. unfold Py.int.
  pose proof (Prim2SF_valid m) as Hv.
  change (Prim2SF 1) with (S754_finite false 4503599627370496 (-52)).
  change (Prim2SF 0) with (S754_zero false).
  destruct (Prim2SF m) as [s|s| |s mm e].
  - reflexivity.
  - destruct s; discriminate.
  - discriminate.
  - destruct s; [discriminate|]. intros _.
    apply valid_mantissa in Hv as (Hup & Hmin & Hnorm).
    unfold SFltb, SFcompare.
    destruct (Z.compare_spec e (-52)) as [He|He|He]; try discriminate.
    + subst e.
      destruct (Pos.compare_cont Eq mm 4503599627370496) eqn:Hc; try discriminate.
      intros _. apply (proj1 (Pos.compare_lt_iff mm 4503599627370496)) in Hc.
      unfold Py.dyadic.
      change (0 <=? -52)%Z with false. change (- -52)%Z with 52%Z.
      cbv beta iota. f_equal. apply Z.div_small.
      split; [apply Pos2Z.is_nonneg|].
      change (2 ^ 52)%Z with (Zpos 4503599627370496).
      now apply Pos2Z.pos_lt_pos.
    + intros _. unfold Py.dyadic.
      destruct (0 <=? e)%Z eqn:H0; [apply Z.leb_le in H0; lia|].
      cbv beta iota. f_equal. apply Z.div_small.
      split; [apply Pos2Z.is_nonneg|].
      apply Z.lt_le_trans with (1 := Hup). apply Z.pow_le_mono_r; lia.
Qed.

(** * [buy_or_sell] *)

(** What a call returns when its fund has a balance and a name and the
    test of line 37 gives [hold]. *)
Lemma buy_or_sell_run (p t c m : float) (key : nat) (st : UiMainWindow)
  (names : list string) (name : string) (hold : bool) :
  (c =? 0)%float = false ->
  looks_good (t * p / c) m = inr hold ->
  nth_error (info_table st) 1 = Some (Row names) ->
  nth_error names key = Some name ->
  buy_or_sell p t c m key st =
  (inr ((if hold then "Looks good for "
         else (if (1 <? t * p / c)%float then "Buy " else "Sell ")
                ++ "$" ++ Py.str (Py.round (abs (c - t * p)) 2) ++ " ")
        ++ name),
   record_target (t * p) st).
Proof.
  intros Hc Hhold Hrow Hname.
  unfold buy_or_sell, bind, divide. rewrite Hc. unfold ret at 1.
  rewrite Hhold. unfold lift, ret at 1, modify, table_cell, bind, get.
  change (info_table (set_target_value _ st)) with (info_table st).
  unfold index. rewrite Hrow. unfold ret at 1.
  change (cells _ (Row names)) with names. rewrite Hname. reflexivity.
Qed.

Lemma buy_or_sell_zero (p t c m : float) (key : nat) (st : UiMainWindow) :
  (c =? 0)%float = true ->
  buy_or_sell p t c m key st = (inl Py.ZeroDivisionError, st).
Proof.
  intros Hc. unfold buy_or_sell, bind, divide. now rewrite Hc.
Qed.

(** C1: when the fund's balance is not zero and the test of line 37 is
    false, [buy_or_sell] takes [target = total * percentage], returns a Buy
    text if [target / current > 1.0] and a Sell text otherwise, with the
    amount [|target - current|] rounded to two decimals (and it records the
    rounded target). *)
Theorem buy_or_sell_trade (p t c m : float) (key : nat) (st : UiMainWindow)
  (names : list string) (name : string) :
  (c =? 0)%float = false ->
  looks_good (t * p / c) m = inr false ->
  nth_error (info_table st) 1 = Some (Row names) ->
  nth_error names key = Some name ->
  let target := (t * p)%float in
  let amount := Py.str (Py.round (abs (target - c)) 2) in
  buy_or_sell p t c m key st =
  (inr (if (1 <? target / c)%float then buy_text amount name
        else sell_text amount name),
   record_target target st).
Proof.
  intros Hc Hhold Hrow Hname target amount.
  rewrite (buy_or_sell_run p t c m key st names name false Hc Hhold Hrow Hname).
  unfold amount, target, buy_text, sell_text.
  rewrite (abs_sub_comm c (t * p)).
  destruct (1 <? t * p / c)%float; simpl; now rewrite !append_assoc.
Qed.

Lemma buy_or_sell_raise (p t c m : float) (key : nat) (st : UiMainWindow)
  (e : Py.exn) :
  (c =? 0)%float = false ->
  looks_good (t * p / c) m = inl e ->
  buy_or_sell p t c m key st = (inl e, st).
Proof.
  intros Hc Hhold. unfold buy_or_sell, bind, divide. rewrite Hc.
  unfold ret at 1. now rewrite Hhold.
Qed.

Lemma trade_is_not_hold (amount name : string) (up : bool) :
  ((if up then "Buy " else "Sell ") ++ "$" ++ amount ++ " ") ++ name
  <> hold_text name.
Proof. destruct up; discriminate. Qed.

Lemma looks_good_true (ratio m : float) :
  looks_good ratio m = inr true <->
  within_tolerance ratio = true /\ Py.int m = inr 0%Z.
Proof.
  unfold looks_good. destruct (within_tolerance ratio).
  - destruct (Py.int m) as [e|n].
    + split; [discriminate | intros [_ H]; discriminate].
    + destruct (Z.eqb_spec n 0) as [->|Hn].
      * split; [now split | reflexivity].
      * split; [discriminate | intros [_ H]; congruence].
  - split; [discriminate | intros [H _]; discriminate].
Qed.

(** The button holds exactly when the test of line 37 is true. *)
Lemma buy_or_sell_holds_iff (p t c m : float) (key : nat)
  (st : UiMainWindow) (names : list string) (name : string) :
  (c =? 0)%float = false ->
  nth_error (info_table st) 1 = Some (Row names) ->
  nth_error names key = Some name ->
  outcome (buy_or_sell p t c m key) st = inr (hold_text name) <->
  within_tolerance (t * p / c) = true /\ Py.int m = inr 0%Z.
Proof.
  intros Hc Hrow Hname.
  rewrite <- looks_good_true. unfold outcome.
  destruct (looks_good (t * p / c) m) as [e|hold] eqn:Hhold.
  - rewrite (buy_or_sell_raise _ _ _ _ _ _ _ Hc Hhold).
    split; discriminate.
  - rewrite (buy_or_sell_run _ _ _ _ _ _ _ _ _ Hc Hhold Hrow Hname).
    destruct hold; simpl fst.
    + split; reflexivity.
    + split; [|discriminate]. intros H. injection H as H.
      now apply trade_is_not_hold in H.
Qed.

(** C2 (amended): for a fund with a balance, [buy_or_sell] answers Hold if
    and only if the ratio is within the tolerance and [int(money_to_invest)],
    the new money cut to whole dollars, is 0; so with a dollar or more of
    new money and the ratio within the tolerance it does not answer Hold,
    and at ratio exactly 1.0 with new money 0 it answers Hold. *)
Theorem hold_iff_no_whole_dollar (p t c m : float) (key : nat)
  (st : UiMainWindow) (names : list string) (name : string) :
  (c =? 0)%float = false ->
  nth_error (info_table st) 1 = Some (Row names) ->
  nth_error names key = Some name ->
  let ratio := (t * p / c)%float in
  (outcome (buy_or_sell p t c m key) st = inr (hold_text name) <->
   within_tolerance ratio = true /\ Py.int m = inr 0%Z) /\
  (within_tolerance ratio = true -> (1 <=? m)%float = true ->
   outcome (buy_or_sell p t c m key) st <> inr (hold_text name)) /\
  (ratio = 1%float -> m = 0%float ->
   outcome (buy_or_sell p t c m key) st = inr (hold_text name)).
Proof.
  intros Hc Hrow Hname ratio.
  pose proof (buy_or_sell_holds_iff p t c m key st names name Hc Hrow Hname)
    as Hiff.
  split; [exact Hiff|]. split.
  - intros _ Hone H. apply Hiff in H as [_ H].
    now apply int_at_least_one in Hone.
  - intros Hr ->. apply Hiff. fold ratio. rewrite Hr. split; reflexivity.
Qed.

Lemma hold_iff_no_whole_dollar_witness :
  outcome (buy_or_sell 0.2 300 60 0 0) loaded_balanced
  = inr (hold_text "FXNAX").
Proof.
  refine (proj2 (proj2 (hold_iff_no_whole_dollar 0.2 300 60 0 0 loaded_balanced
            ["FXNAX"; "FZILX"; "FZROX"] "FXNAX" _ _ _)) _ _);
    vm_compute; reflexivity.
Defined.

(** C2 fails as the specification words it: with half a dollar of new
    money and the ratio within the tolerance the bond button holds. *)
Lemma half_dollar_holds :
  ~ holds_iff_no_new_money 0.2 300.5 60 0.5 0 loaded_balanced "FXNAX".
Proof.
  unfold holds_iff_no_new_money. intros [Hhold _].
  assert (H : hold_when_no_new_money (300.5 * 0.2 / 60) 0.5 = false)
    by (vm_compute; reflexivity).
  rewrite Hhold in H; [discriminate|]. vm_compute. reflexivity.
Qed.

Lemma buy_or_sell_trade_witness :
  buy_or_sell 0.2 300 100 0 0 loaded_even
  = (inr (sell_text "40.0" "FXNAX"), record_target 60 loaded_even).
Proof.
  pose proof (buy_or_sell_trade 0.2 300 100 0 0 loaded_even
                ["FXNAX"; "FZILX"; "FZROX"] "FXNAX") as H.
  vm_compute in H |- *. apply H; reflexivity.
Defined.

(** * Running a method *)

Lemma bind_ok {A B} (m : M A) (k : A -> M B) (st st' : UiMainWindow) (a : A) :
  m st = (inr a, st') -> bind m k st = k a st'.
Proof. intros H. unfold bind. now rewrite H. Qed.

Lemma bind_raise {A B} (m : M A) (k : A -> M B) (st st' : UiMainWindow)
  (e : Py.exn) :
  m st = (inl e, st') -> bind m k st = (inl e, st').
Proof. intros H. unfold bind. now rewrite H. Qed.

Lemma balance_ok (i : nat) (st : UiMainWindow) (c : float) :
  nth_error (current_balances st) i = Some c -> balance i st = (inr c, st).
Proof.
  intros H. unfold balance, bind, get, index. now rewrite H.
Qed.

(** * [calculate_strategy] *)

(** C3: with the balances 100, 100, 100, no new money and a file name in
    which 2020 occurs, the strategy is computed on the total 300 with the
    split 20/30/50: the targets are 60, 90 and 150 and the buttons read
    Sell $40.0, Sell $10.0 and Buy $50.0 for the bond, the international and
    the national fund. *)
Theorem even_hundreds_in_2020 (st : UiMainWindow) (n0 n1 n2 : string) :
  current_balances st = [100; 100; 100]%float ->
  occurs_in "2020" (filename st) ->
  nth_error (info_table st) 1 = Some (Row [n0; n1; n2]) ->
  let st' := state_after (calculate_strategy 0) st in
  outcome (calculate_strategy 0) st = inr tt /\
  glide_path (filename st) = (0.2, 0.3, 0.5)%float /\
  target_value st' = ["60.0"; "90.0"; "150.0"] /\
  bonds_button st' = sell_text "40.0" n0 /\
  international_button st' = sell_text "10.0" n1 /\
  national_button st' = buy_text "50.0" n2.
Proof.
  intros Hbal Hocc Hrow. apply contains_occurs in Hocc.
  assert (Hglide : glide_path (filename st) = (0.2, 0.3, 0.5)%float)
    by (unfold glide_path; now rewrite Hocc).
  destruct st as [table bal tv f entry err info bb ib nb cb].
  simpl in Hbal, Hrow, Hglide. subst bal.
  destruct table as [|r0 [|r1 rest]]; try discriminate.
  simpl in Hrow. injection Hrow as ->.
  unfold state_after, outcome.
  remember (calculate_strategy 0 _) as run eqn:Hrun.
  unfold calculate_strategy, bind at 1, get in Hrun.
  cbv beta iota in Hrun. cbn [filename] in Hrun. rewrite Hglide in Hrun.
  vm_compute in Hrun. subst run. repeat split; try reflexivity. exact Hglide.
Qed.

Lemma even_hundreds_in_2020_witness :
  bonds_button (state_after (calculate_strategy 0) loaded_even)
  = sell_text "40.0" "FXNAX".
Proof.
  refine (proj1 (proj2 (proj2 (proj2
    (even_hundreds_in_2020 loaded_even "FXNAX" "FZILX" "FZROX" _ _ _))))).
  - vm_compute. reflexivity.
  - apply contains_occurs. vm_compute. reflexivity.
  - vm_compute. reflexivity.
Defined.

Ltac step_modify := erewrite bind_ok by reflexivity.
Ltac step_balance := erewrite bind_ok by (apply balance_ok; reflexivity).

(** C6: a call of [buy_or_sell] for a fund whose balance is zero fails with
    [ZeroDivisionError] at the division of line 33 and changes nothing; so
    [calculate_strategy] fails with [ZeroDivisionError] whenever one of the
    three balances is zero, whatever the new money and the file name. *)
Theorem zero_balance_raises :
  (forall (p t c m : float) (key : nat) (st : UiMainWindow),
      (c =? 0)%float = true ->
      buy_or_sell p t c m key st = (inl Py.ZeroDivisionError, st)) /\
  (forall (m c0 c1 c2 : float) (n0 n1 n2 : string) (st : UiMainWindow),
      current_balances st = [c0; c1; c2] ->
      nth_error (info_table st) 1 = Some (Row [n0; n1; n2]) ->
      (c0 =? 0)%float || (c1 =? 0)%float || (c2 =? 0)%float = true ->
      outcome (calculate_strategy m) st = inl Py.ZeroDivisionError).
Proof.
  split; [exact buy_or_sell_zero|].
  intros m c0 c1 c2 n0 n1 n2 st Hbal Hrow Hzero.
  destruct st as [table bal tv f entry err info bb ib nb cb].
  simpl in Hbal, Hrow. subst bal.
  unfold outcome, calculate_strategy. unfold bind at 1, get.
  cbv beta iota. cbn [filename current_balances].
  destruct (glide_path f) as [[b i] n].
  step_modify. step_balance.
  destruct (c0 =? 0)%float eqn:H0.
  { erewrite bind_raise by (now apply buy_or_sell_zero). reflexivity. }
  destruct (looks_good_total m (Py.sum [c0; c1; c2]) b c0) as [h0 Hh0].
  erewrite bind_ok
    by (eapply buy_or_sell_run; [exact H0 | exact Hh0 | exact Hrow | reflexivity]).
  step_modify. step_balance.
  destruct (c1 =? 0)%float eqn:H1.
  { erewrite bind_raise by (now apply buy_or_sell_zero). reflexivity. }
  destruct (looks_good_total m (Py.sum [c0; c1; c2]) i c1) as [h1 Hh1].
  erewrite bind_ok
    by (eapply buy_or_sell_run; [exact H1 | exact Hh1 | exact Hrow | reflexivity]).
  step_modify. step_balance.
  destruct (c2 =? 0)%float eqn:H2; [|discriminate Hzero].
  erewrite bind_raise by (now apply buy_or_sell_zero). reflexivity.
Qed.

Lemma zero_balance_raises_witness :
  outcome (calculate_strategy 25) loaded_empty_fund
  = inl Py.ZeroDivisionError.
Proof.
  refine (proj2 zero_balance_raises 25%float 100%float 0%float 100%float
            "FXNAX" "FZILX" "FZROX" _ _ _ _); vm_compute; reflexivity.
Defined.

(** * [scrape_values_from_csv] and [open_csv] *)

Lemma index_cases {A} (l : list A) (i : nat) (st : UiMainWindow) :
  (exists a, nth_error l i = Some a /\ index l i st = (inr a, st)) \/
  (length l <= i /\ index l i st = (inl Py.IndexError, st)).
Proof.
  unfold index. destruct (nth_error l i) as [a|] eqn:H.
  - left. now exists a.
  - right. split; [now apply nth_error_None | reflexivity].
Qed.

(** One turn of the loop either raises before it touched anything, or adds
    one balance; it passes only on a row the file has. *)
Lemma scrape_row_cases (csv_list : csv_rows) (temps : list string * list string)
  (i : nat) (st : UiMainWindow) :
  (exists e, scrape_row csv_list temps i st = (inl e, st) /\
             (e = Py.IndexError \/ e = Py.ValueError)) \/
  (exists temps' x,
      scrape_row csv_list temps i st
      = (inr temps', set_current_balances (current_balances st ++ [x])%list st) /\
      i < length csv_list).
Proof.
  destruct temps as [temp_names temp_balances]. unfold scrape_row.
  destruct (index_cases csv_list i st) as [(r & Hr & Hi) | [Hlen Hi]];
    [|left; exists Py.IndexError; split; [now rewrite (bind_raise _ _ _ _ _ Hi) | now left]].
  rewrite (bind_ok _ _ _ _ _ Hi).
  destruct (index_cases r 6 st) as [(value & Hv & Hi6) | [Hlen6 Hi6]];
    [|left; exists Py.IndexError; split; [now rewrite (bind_raise _ _ _ _ _ Hi6) | now left]].
  rewrite (bind_ok _ _ _ _ _ Hi6).
  destruct (index_cases (temp_balances ++ [value])%list (i - 2) st)
    as [(b & Hb & Hib) | [Hlenb Hib]];
    [|left; exists Py.IndexError; split; [now rewrite (bind_raise _ _ _ _ _ Hib) | now left]].
  rewrite (bind_ok _ _ _ _ _ Hib).
  destruct (Py.float (Py.remove_char "$" b)) as [x|] eqn:Hx.
  2:{ left. exists Py.ValueError. split; [|now right].
      apply bind_raise. unfold to_float. now rewrite Hx. }
  right.
  rewrite (bind_ok _ _ st st x) by (unfold to_float; now rewrite Hx).
  set (st1 := set_current_balances (current_balances st ++ [x])%list st).
  rewrite (bind_ok _ _ st st1 tt) by reflexivity.
  rewrite (bind_ok _ _ st1 st1 r) by (unfold index; now rewrite Hr).
  destruct (nth_error r 1) as [name|] eqn:Hname.
  - rewrite (bind_ok _ _ st1 st1 name) by (unfold index; now rewrite Hname).
    eexists _, x. split; [reflexivity|].
    apply nth_error_Some. congruence.
  - apply nth_error_None in Hname.
    assert (6 < length r) by (apply nth_error_Some; congruence). lia.
Qed.

Lemma scrape_short_file (disk : string -> option csv_rows) (rows : csv_rows)
  (st : UiMainWindow) :
  disk (filename st) = Some rows ->
  length rows < 5 ->
  exists e st',
    scrape_values_from_csv disk st = (inl e, st') /\
    (e = Py.IndexError \/ e = Py.ValueError) /\
    error_label st' = error_label st /\
    info_table st' = [Row header] /\
    length (current_balances st') < 3.
Proof.
  intros Hdisk Hshort. unfold scrape_values_from_csv.
  set (sta := set_current_balances [] st).
  rewrite (bind_ok _ _ st sta tt) by reflexivity.
  unfold bind at 1, get. cbv beta iota.
  change (filename sta) with (filename st). rewrite Hdisk.
  set (st1 := set_info_table [Row header] sta).
  rewrite (bind_ok _ _ sta st1 tt) by reflexivity.
  cbn [for_each].
  destruct (scrape_row_cases rows ([], []) 2 st1)
    as [(e & He & Hkind) | (t2 & x2 & H2 & _)].
  { exists e, st1. split; [|repeat split; auto].
    apply bind_raise. now apply bind_raise. }
  set (st2 := set_current_balances _ st1) in H2.
  destruct (scrape_row_cases rows t2 3 st2)
    as [(e & He & Hkind) | (t3 & x3 & H3 & _)].
  { exists e, st2. split; [|repeat split; auto].
    apply bind_raise. rewrite (bind_ok _ _ _ _ _ H2). now apply bind_raise. }
  set (st3 := set_current_balances _ st2) in H3.
  destruct (scrape_row_cases rows t3 4 st3)
    as [(e & He & Hkind) | (t4 & x4 & _ & Hlong)]; [|lia].
  exists e, st3. split; [|repeat split; auto; simpl; lia].
  apply bind_raise. rewrite (bind_ok _ _ _ _ _ H2), (bind_ok _ _ _ _ _ H3).
  now apply bind_raise.
Qed.

(** C7 fails on the code: a file that opens but has fewer than five rows
    makes [open_csv] raise out of the loop of lines 67-70 ([IndexError], or
    [ValueError] at a value that is no number).  No message is shown, the
    balances are not the no-data flag but the zero, one or two values read so
    far, and the info table is left with its heading alone. *)
Theorem short_file_raises (disk : string -> option csv_rows) (chosen : string)
  (rows : csv_rows) (st : UiMainWindow) :
  disk chosen = Some rows ->
  length rows < 5 ->
  exists e st',
    open_csv disk chosen st = (inl e, st') /\
    (e = Py.IndexError \/ e = Py.ValueError) /\
    error_label st' = error_label st /\
    info_table st' = [Row header] /\
    length (current_balances st') < 3.
Proof.
  intros Hdisk Hshort. unfold open_csv.
  set (st0 := set_filename chosen st).
  rewrite (bind_ok _ _ st st0 tt) by reflexivity.
  destruct (scrape_short_file disk rows st0 Hdisk Hshort)
    as (e & st' & Hrun & Hkind & Hlabel & Htable & Hbal).
  exists e, st'. split; [now apply bind_raise|]. repeat split; auto.
Qed.

Lemma short_file_raises_witness :
  exists e st',
    open_csv sample_disk "Short_2020.csv" loaded_even = (inl e, st') /\
    (e = Py.IndexError \/ e = Py.ValueError) /\
    error_label st' = error_label loaded_even /\
    info_table st' = [Row header] /\
    length (current_balances st') < 3.
Proof.
  apply (short_file_raises sample_disk "Short_2020.csv" short_positions).
  - reflexivity.
  - simpl. lia.
Defined.

(** What the run on [Short_2020.csv] leaves: two balances of a file that
    was refused, under a label that still names the file opened before. *)
Lemma short_file_run :
  open_csv sample_disk "Short_2020.csv" loaded_even
  = (inl Py.IndexError,
     set_current_balances [60; 90]%float
       (set_info_table [Row header]
          (set_filename "Short_2020.csv" loaded_even))).
Proof. vm_compute. reflexivity. Qed.

(** A file that cannot be opened is reported: the balances become the
    no-data flag and the label says so. *)
Lemma missing_file_reported (disk : string -> option csv_rows)
  (chosen : string) (st : UiMainWindow) :
  disk chosen = None ->
  open_csv disk chosen st
  = (inr tt,
     set_error_label "you did not enter a csv file"
       (set_current_balances [(-1)%float] (set_filename chosen st))).
Proof.
  intros Hdisk. unfold open_csv.
  set (st0 := set_filename chosen st).
  rewrite (bind_ok _ _ st st0 tt) by reflexivity.
  assert (Hs : scrape_values_from_csv disk st0
               = (inr tt, set_current_balances [(-1)%float] st0)).
  { unfold scrape_values_from_csv.
    rewrite (bind_ok _ _ st0 (set_current_balances [] st0) tt) by reflexivity.
    unfold bind at 1, get. cbv beta iota.
    change (filename (set_current_balances [] st0)) with chosen.
    rewrite Hdisk. reflexivity. }
  rewrite (bind_ok _ _ _ _ _ Hs). reflexivity.
Qed.

(** * [calculate] *)

(** C8: with nothing in the amount field [calculate] goes on as with the
    amount 0.0; with any other ASCII text that [float] refuses it writes
    [You did not enter a valid amount] on the error label and returns,
    and nothing else of the form is changed. *)
Theorem calculate_reads_amount (st : UiMainWindow) :
  (entry_lineEdit st = "" -> calculate st = calculate_with 0 st) /\
  (ascii_text (entry_lineEdit st) = true ->
   Py.float (entry_lineEdit st) = None ->
   entry_lineEdit st <> "" ->
   let st' := state_after calculate st in
   calculate st
     = (inr tt, set_error_label "You did not enter a valid amount" st) /\
   error_label st' = "You did not enter a valid amount" /\
   current_balances st' = current_balances st /\
   info_table st' = info_table st /\
   target_value st' = target_value st /\
   info_label st' = info_label st /\
   bonds_button st' = bonds_button st /\
   international_button st' = international_button st /\
   national_button st' = national_button st).
Proof.
  split.
  - intros Hblank. unfold calculate, bind, get. now rewrite Hblank.
  - intros _ Hbad Hnot st'.
    assert (Hrun : calculate st
              = (inr tt, set_error_label "You did not enter a valid amount" st)).
    { unfold calculate, bind, get. rewrite Hbad.
      destruct (String.eqb_spec (entry_lineEdit st) ""); [contradiction|].
      reflexivity. }
    unfold st', state_after. rewrite Hrun. repeat split.
Qed.

Lemma calculate_reads_amount_witness :
  calculate (type_amount "" loaded_even)
    = calculate_with 0 (type_amount "" loaded_even) /\
  calculate (type_amount "12,50" loaded_even)
    = (inr tt,
       set_error_label "You did not enter a valid amount"
         (type_amount "12,50" loaded_even)).
Proof.
  split.
  - apply (proj1 (calculate_reads_amount (type_amount "" loaded_even))).
    reflexivity.
  - apply (proj2 (calculate_reads_amount (type_amount "12,50" loaded_even))).
    + reflexivity.
    + vm_compute. reflexivity.
    + discriminate.
Defined.

(** C10 fails on the code: line 287 removes the first row equal to the last
    one, not the last one.  For a file of 2020 whose values are written
    10.0, 15.0 and 25.01 the row of target values equals the row of current
    values, so the second removal takes the current values out and the
    table ends with the current-allocation row in their place. *)
Theorem calculate_loses_balances_row :
  let st := type_amount "" loaded_on_target in
  outcome calculate st = inr tt /\
  table_values st
    = [header; ["FXNAX"; "FZILX"; "FZROX"]; ["10.0"; "15.0"; "25.01"]] /\
  table_values (state_after calculate st)
    = [header; ["FXNAX"; "FZILX"; "FZROX"]; ["20.0%"; "29.99%"; "50.01%"]].
Proof. vm_compute. repeat split; reflexivity. Qed.

(** * Further facts about the amount of new money *)

(** A new money that is not below one dollar is at least one dollar, once
    it is known not to be nan. *)
Lemma not_below_one (m : float) :
  (0 <=? m)%float = true -> (m <? 1)%float = false -> (1 <=? m)%float = true.
Proof.
  rewrite !leb_spec, ltb_spec.
  change (Prim2SF 1) with (S754_finite false 4503599627370496 (-52)).
  change (Prim2SF 0) with (S754_zero false).
  destruct (Prim2SF m) as [s|s| |s mm e]; try discriminate.
  - destruct s; [discriminate | reflexivity].
  - destruct s; [discriminate|]. intros _.
    unfold SFltb, SFleb, SFcompare.
    rewrite (Z.compare_antisym e (-52)).
    destruct (e ?= -52)%Z; cbv beta iota delta [CompOpp];
      try discriminate; try reflexivity.
    assert (Hflip : Pos.compare_cont Eq mm 4503599627370496
                    = CompOpp (Pos.compare_cont Eq 4503599627370496 mm))
      by (now rewrite Pos.compare_cont_antisym).
    rewrite Hflip.
    destruct (Pos.compare_cont Eq 4503599627370496 mm);
      cbv beta iota delta [CompOpp]; try discriminate; reflexivity.
Qed.

(** X8: For a new money that is not negative the button holds exactly when the
    ratio is within the tolerance and the new money is below one dollar:
    cents alone never force a trade. *)
Theorem cents_count_as_no_new_money (p t c m : float) (key : nat)
  (st : UiMainWindow) (names : list string) (name : string) :
  (c =? 0)%float = false ->
  nth_error (info_table st) 1 = Some (Row names) ->
  nth_error names key = Some name ->
  (0 <=? m)%float = true ->
  outcome (buy_or_sell p t c m key) st = inr (hold_text name) <->
  within_tolerance (t * p / c) = true /\ (m <? 1)%float = true.
Proof.
  intros Hc Hrow Hname Hpos.
  rewrite (buy_or_sell_holds_iff p t c m key st names name Hc Hrow Hname).
  split; intros [Hw H]; (split; [exact Hw|]).
  - destruct (m <? 1)%float eqn:Hlt; [reflexivity|].
    apply (not_below_one m Hpos) in Hlt.
    now apply int_at_least_one in Hlt.
  - now apply int_below_one.
Qed.

Lemma cents_count_as_no_new_money_witness :
  outcome (buy_or_sell 0.2 300.99 60 0.99 0) loaded_balanced
  = inr (hold_text "FXNAX").
Proof.
  refine (proj2 (cents_count_as_no_new_money 0.2 300.99 60 0.99 0
                   loaded_balanced ["FXNAX"; "FZILX"; "FZROX"] "FXNAX"
                   _ _ _ _) _); try split; vm_compute; reflexivity.
Defined.

(** * The removal loop of [calculate] (lines 286-287) *)

Lemma list_eqb_refl (l : list string) : list_eqb String.eqb l l = true.
Proof.
  induction l as [|x l IH]; simpl; [reflexivity|].
  now rewrite String.eqb_refl.
Qed.

Lemma list_eqb_length (l1 l2 : list string) :
  list_eqb String.eqb l1 l2 = true -> length l1 = length l2.
Proof.
  revert l2; induction l1 as [|x l1 IH]; intros [|y l2]; simpl;
    try discriminate; [reflexivity|].
  intros H. apply andb_prop in H as [_ H]. f_equal. now apply IH.
Qed.

Lemma remove_first_app {A} (p : A -> bool) (l1 l2 : list A) :
  (forall x, In x l1 -> p x = false) ->
  remove_first p (l1 ++ l2) = option_map (app l1) (remove_first p l2).
Proof.
  induction l1 as [|y l1 IH]; intros Hnone; simpl.
  - now destruct (remove_first p l2).
  - rewrite (Hnone y) by now left.
    rewrite IH by (intros x Hx; apply Hnone; now right).
    now destruct (remove_first p l2).
Qed.

(** Removing the first element that [p] accepts, when there is one, leaves
    a list one shorter whose elements all come from the list. *)
Lemma remove_first_some {A} (p : A -> bool) (l : list A) (x : A) :
  In x l -> p x = true ->
  exists l', remove_first p l = Some l' /\
             S (length l') = length l /\ incl l' l.
Proof.
  induction l as [|y l IH]; intros Hin Hp; [contradiction|]. simpl.
  destruct (p y) eqn:Hy.
  - exists l. repeat split. now apply incl_tl, incl_refl.
  - destruct Hin as [-> | Hin]; [congruence|].
    destruct (IH Hin Hp) as (l' & -> & Hlen & Hincl).
    exists (y :: l'). simpl. repeat split; [now rewrite Hlen|].
    intros z [-> | Hz]; [now left | right; now apply Hincl].
Qed.

(** One pass of line 287 on a table that ends with the rows [late], none
    of which equals an earlier row: a row of [late] goes, the earlier rows
    stay. *)
Lemma remove_last_row_late (st : UiMainWindow) (early late : list row) :
  info_table st = (early ++ late)%list ->
  late <> [] ->
  (forall r r', In r early -> In r' late -> row_eqb st r' r = false) ->
  exists late',
    remove_last_row st = (inr tt, set_info_table (early ++ late')%list st) /\
    S (length late') = length late /\ incl late' late.
Proof.
  intros Htable Hne Hdiff. unfold remove_last_row, bind at 1, get.
  cbv beta iota. rewrite Htable.
  destruct (exists_last Hne) as (front & last & ->).
  assert (Hlast : nth_error (early ++ front ++ [last]) (length (early ++ front))
                  = Some last).
  { rewrite app_assoc, nth_error_app2 by lia. now rewrite Nat.sub_diag. }
  assert (Hlen : length (early ++ front ++ [last]) = S (length (early ++ front))).
  { rewrite !length_app. simpl. lia. }
  rewrite Hlen. unfold index. rewrite Hlast. unfold bind, ret.
  rewrite remove_first_app
    by (intros r Hr; apply Hdiff; [exact Hr | apply in_or_app; right; now left]).
  destruct (remove_first_some (row_eqb st last) (front ++ [last]) last)
    as (late' & -> & Hlate & Hincl).
  - apply in_or_app. right. now left.
  - apply list_eqb_refl.
  - exists late'. simpl. repeat split; assumption.
Qed.

(** The three passes of the loop take exactly three rows out of a table of
    three rows or more, and never raise. *)
Lemma removal_loop_length (st : UiMainWindow) :
  3 <= length (info_table st) ->
  exists table,
    for_each [0; 1; 2]%nat (fun _ _ => remove_last_row) tt st
    = (inr tt, set_info_table table st) /\
    length table + 3 = length (info_table st).
Proof.
  intros Hlen.
  assert (Hstep : forall st', info_table st' <> [] ->
            exists table, remove_last_row st' = (inr tt, set_info_table table st')
                          /\ S (length table) = length (info_table st')).
  { intros st' Hne.
    destruct (remove_last_row_late st' [] (info_table st') eq_refl Hne)
      as (late' & Hrun & Hl & _); [intros r r' []|].
    now exists late'. }
  destruct (Hstep st) as (t1 & H1 & L1); [destruct (info_table st); simpl in *; [lia | discriminate]|].
  destruct (Hstep (set_info_table t1 st)) as (t2 & H2 & L2);
    [simpl; destruct t1; simpl in *; [lia | discriminate]|].
  destruct (Hstep (set_info_table t2 st)) as (t3 & H3 & L3);
    [simpl in *; destruct t2; simpl in *; [lia | discriminate]|].
  exists t3. split; [|simpl in *; lia].
  cbn [for_each]. unfold bind. rewrite H1.
  change (set_info_table t2 (set_info_table t1 st)) with (set_info_table t2 st) in H2.
  rewrite H2. rewrite H3. reflexivity.
Qed.

(** When none of the three last rows equals an earlier row, the three
    passes take out exactly these three rows. *)
Lemma removal_loop_restores (st : UiMainWindow) (early : list row)
  (r1 r2 r3 : row) :
  info_table st = (early ++ [r1; r2; r3])%list ->
  (forall r r', In r early -> In r' [r1; r2; r3] -> row_eqb st r' r = false) ->
  for_each [0; 1; 2]%nat (fun _ _ => remove_last_row) tt st
  = (inr tt, set_info_table early st).
Proof.
  intros Htable Hdiff.
  destruct (remove_last_row_late st early [r1; r2; r3] Htable)
    as (l1 & H1 & L1 & I1); [discriminate | exact Hdiff |].
  destruct (remove_last_row_late (set_info_table (early ++ l1) st) early l1 eq_refl)
    as (l2 & H2 & L2 & I2);
    [destruct l1; [discriminate L1 | discriminate]
    | intros r r' Hr Hr'; apply (Hdiff r r' Hr); now apply I1 |].
  destruct (remove_last_row_late (set_info_table (early ++ l2) st) early l2 eq_refl)
    as (l3 & H3 & L3 & I3);
    [destruct l2; [simpl in L2; rewrite <- L2 in L1; discriminate L1 | discriminate]
    | intros r r' Hr Hr'; apply (Hdiff r r' Hr); now apply I1, I2 |].
  assert (l3 = []) by (destruct l3; [reflexivity | simpl in *; lia]). subst l3.
  rewrite app_nil_r in H3.
  cbn [for_each]. unfold bind. rewrite H1.
  change (set_info_table (early ++ l2) (set_info_table (early ++ l1) st))
    with (set_info_table (early ++ l2) st) in H2.
  rewrite H2. rewrite H3. reflexivity.
Qed.


(** * Methods that only read *)

Lemma read_only_ret {A} (a : A) : read_only (ret a).
Proof. intros st. reflexivity. Qed.

Lemma read_only_raise {A} (e : Py.exn) : read_only (@raise A e).
Proof. intros st. reflexivity. Qed.

Lemma read_only_lift {A} (r : Py.exn + A) : read_only (lift r).
Proof. destruct r; intros st; reflexivity. Qed.

Lemma read_only_index {A} (l : list A) (i : nat) : read_only (index l i).
Proof. intros st. unfold index. now destruct (nth_error l i). Qed.

Lemma read_only_bind {A B} (m : M A) (k : A -> M B) :
  read_only m -> (forall a, read_only (k a)) -> read_only (bind m k).
Proof.
  intros Hm Hk st. unfold bind. specialize (Hm st).
  destruct (m st) as [[e|a] st']; simpl in Hm; subst st'; [reflexivity|].
  apply Hk.
Qed.

Lemma read_only_get_bind {B} (k : UiMainWindow -> M B) :
  (forall st, read_only (k st)) -> read_only (bind get k).
Proof. intros Hk st. unfold bind, get. apply Hk. Qed.

Lemma read_only_for_each {A B} (l : list A) (body : B -> A -> M B) (acc : B) :
  (forall b a, read_only (body b a)) -> read_only (for_each l body acc).
Proof.
  intros Hbody. revert acc. induction l as [|x l IH]; intros acc; simpl.
  - apply read_only_ret.
  - apply read_only_bind; [apply Hbody | exact IH].
Qed.

Lemma read_only_table_cell (i j : nat) : read_only (table_cell i j).
Proof.
  unfold table_cell. apply read_only_get_bind. intros st.
  apply read_only_bind; [apply read_only_index|].
  intros r. apply read_only_index.
Qed.

Lemma read_only_balance (i : nat) : read_only (balance i).
Proof.
  unfold balance. apply read_only_get_bind. intros st. apply read_only_index.
Qed.

Lemma read_only_divide (a b : float) : read_only (divide a b).
Proof.
  unfold divide. destruct (b =? 0)%float;
    [apply read_only_raise | apply read_only_ret].
Qed.

Lemma read_only_allocation (i : nat) (total m : float) :
  read_only (allocation i total m).
Proof.
  unfold allocation. apply read_only_bind; [apply read_only_balance|].
  intros c. apply read_only_bind; [apply read_only_divide|].
  intros q. apply read_only_ret.
Qed.

(** Building the text of the table changes nothing. *)
Lemma read_only_table_text : read_only table_text.
Proof.
  unfold table_text. apply read_only_get_bind. intros st.
  apply read_only_bind; [apply read_only_index|]. intros r0.
  apply read_only_bind.
  { apply read_only_for_each. intros s i.
    apply read_only_bind; [apply read_only_table_cell|].
    intros c. apply read_only_ret. }
  intros s. apply read_only_bind; [apply read_only_lift|]. intros n.
  apply read_only_bind; [apply read_only_index|]. intros r1.
  apply read_only_bind; [|intros s'; apply read_only_ret].
  apply read_only_for_each. intros s1 i.
  apply read_only_for_each. intros s2 j.
  apply read_only_bind; [apply read_only_table_cell|].
  intros c. apply read_only_ret.
Qed.

(** * Taking a run apart *)

Lemma bind_returns {A B} (m : M A) (k : A -> M B) (st st' : UiMainWindow)
  (b : B) :
  bind m k st = (inr b, st') ->
  exists a st1, m st = (inr a, st1) /\ k a st1 = (inr b, st').
Proof.
  unfold bind. destruct (m st) as [[e|a] st1]; [discriminate|].
  intros H. now exists a, st1.
Qed.

Lemma read_only_returns {A} (m : M A) (st st' : UiMainWindow) (r : Py.exn + A) :
  read_only m -> m st = (r, st') -> st' = st.
Proof. intros Hm H. specialize (Hm st). rewrite H in Hm. exact Hm. Qed.

(** A call of [buy_or_sell] that returns has recorded one target and has
    left the table and the balances alone. *)
Lemma buy_or_sell_returns (p t c m : float) (key : nat)
  (st st' : UiMainWindow) (s : string) :
  buy_or_sell p t c m key st = (inr s, st') ->
  st' = record_target (t * p) st.
Proof.
  unfold buy_or_sell. intros H.
  apply bind_returns in H as (ratio & st1 & Hd & H).
  apply (read_only_returns _ _ _ _ (read_only_divide _ _)) in Hd as ->.
  apply bind_returns in H as (hold & st1 & Hl & H).
  apply (read_only_returns _ _ _ _ (read_only_lift _)) in Hl as ->.
  apply bind_returns in H as ([] & st1 & Hm & H).
  unfold modify in Hm. injection Hm as <-.
  apply bind_returns in H as (name & st1 & Hn & H).
  apply (read_only_returns _ _ _ _ (read_only_table_cell _ _)) in Hn as ->.
  unfold ret in H. now injection H as _ <-.
Qed.

(** A run of [calculate_strategy] that returns has added exactly three
    rows to the info table, the second being the list of targets itself. *)
Lemma calculate_strategy_appends (m : float) (st st' : UiMainWindow) :
  calculate_strategy m st = (inr tt, st') ->
  exists shares percents,
    info_table st'
    = (info_table st ++ [Row shares; TargetValueRow; Row percents])%list.
Proof.
  unfold calculate_strategy. unfold bind at 1, get. cbv beta iota.
  destruct (glide_path (filename st)) as [[b i] n]. intros H.
  apply bind_returns in H as ([] & st1 & Hm & H).
  unfold modify in Hm. injection Hm as <-.
  apply bind_returns in H as (c0 & st1 & Hb & H).
  apply (read_only_returns _ _ _ _ (read_only_balance _)) in Hb as ->.
  apply bind_returns in H as (s0 & st1 & Hf & H).
  apply buy_or_sell_returns in Hf as ->.
  apply bind_returns in H as ([] & st1 & Hm & H).
  unfold modify in Hm. injection Hm as <-.
  apply bind_returns in H as (c1 & st1 & Hb & H).
  apply (read_only_returns _ _ _ _ (read_only_balance _)) in Hb as ->.
  apply bind_returns in H as (s1 & st1 & Hf & H).
  apply buy_or_sell_returns in Hf as ->.
  apply bind_returns in H as ([] & st1 & Hm & H).
  unfold modify in Hm. injection Hm as <-.
  apply bind_returns in H as (c2 & st1 & Hb & H).
  apply (read_only_returns _ _ _ _ (read_only_balance _)) in Hb as ->.
  apply bind_returns in H as (s2 & st1 & Hf & H).
  apply buy_or_sell_returns in Hf as ->.
  apply bind_returns in H as ([] & st1 & Hm & H).
  unfold modify in Hm. injection Hm as <-.
  apply bind_returns in H as (a0 & st1 & Ha & H).
  apply (read_only_returns _ _ _ _ (read_only_allocation _ _ _)) in Ha as ->.
  apply bind_returns in H as (a1 & st1 & Ha & H).
  apply (read_only_returns _ _ _ _ (read_only_allocation _ _ _)) in Ha as ->.
  apply bind_returns in H as (a2 & st1 & Ha & H).
  apply (read_only_returns _ _ _ _ (read_only_allocation _ _ _)) in Ha as ->.
  apply bind_returns in H as ([] & st1 & Hm & H).
  unfold append_row, modify in Hm. injection Hm as <-.
  apply bind_returns in H as ([] & st1 & Hm & H).
  unfold append_row, modify in Hm. injection Hm as <-.
  unfold append_row, modify in H. injection H as <-.
  eexists _, _. cbn [info_table set_info_table]. 
  rewrite <- !app_assoc. reflexivity.
Qed.

(** * When [calculate_strategy] returns *)

Lemma allocation_ok (i : nat) (total m c : float) (st : UiMainWindow) :
  nth_error (current_balances st) i = Some c ->
  (total - m =? 0)%float = false ->
  allocation i total m st
  = (inr (Py.str (Py.round (100 * c / (total - m)) 2) ++ "%"), st).
Proof.
  intros Hc Hz. unfold allocation.
  rewrite (bind_ok _ _ st st c) by (now apply balance_ok).
  unfold bind, divide. now rewrite Hz.
Qed.

Lemma allocation_zero (i : nat) (total m c : float) (st : UiMainWindow) :
  nth_error (current_balances st) i = Some c ->
  (total - m =? 0)%float = true ->
  allocation i total m st = (inl Py.ZeroDivisionError, st).
Proof.
  intros Hc Hz. unfold allocation.
  rewrite (bind_ok _ _ st st c) by (now apply balance_ok).
  unfold bind, divide. now rewrite Hz.
Qed.

Ltac step_fund H Hh Hrow :=
  erewrite bind_ok
    by (eapply buy_or_sell_run; [exact H | exact Hh | exact Hrow | reflexivity]).
Ltac step_share Hsum :=
  erewrite bind_ok by (apply allocation_ok; [reflexivity | exact Hsum]).
Ltac fund_is_empty :=
  erewrite bind_raise by (now apply buy_or_sell_zero); reflexivity.

(** The run of [calculate_strategy] on a form with three balances and three
    fund names, step by step. *)
Lemma calculate_strategy_cases (m c0 c1 c2 b i n : float) (n0 n1 n2 : string)
  (st : UiMainWindow) :
  current_balances st = [c0; c1; c2] ->
  nth_error (info_table st) 1 = Some (Row [n0; n1; n2]) ->
  glide_path (filename st) = (b, i, n) ->
  let total := (m + Py.sum [c0; c1; c2])%float in
  let share c := Py.str (Py.round (100 * c / (total - m)) 2) ++ "%" in
  let target p := Py.str (Py.round (total * p) 2) in
  let percent p := Py.str (100 * p) ++ "%" in
  if (c0 =? 0)%float || (c1 =? 0)%float || (c2 =? 0)%float
     || (total - m =? 0)%float
  then outcome (calculate_strategy m) st = inl Py.ZeroDivisionError
  else
    exists s0 s1 s2,
      outcome (buy_or_sell b total c0 m 0) st = inr s0 /\
      outcome (buy_or_sell i total c1 m 1) st = inr s1 /\
      outcome (buy_or_sell n total c2 m 2) st = inr s2 /\
      calculate_strategy m st
      = (inr tt,
         set_info_table
           (info_table st
            ++ [Row [share c0; share c1; share c2]; TargetValueRow;
                Row [percent b; percent i; percent n]])%list
           (set_national_button s2
              (set_international_button s1
                 (set_bonds_button s0
                    (set_target_value [target b; target i; target n] st))))).
Proof.
  intros Hbal Hrow Hglide total share target percent.
  destruct st as [table bal tv f entry err info bb ib nb cb].
  simpl in Hbal, Hrow, Hglide. subst bal.
  set (st := mkUi table [c0; c1; c2] tv f entry err info bb ib nb cb).
  destruct (looks_good_total m (Py.sum [c0; c1; c2]) b c0) as [h0 Hh0].
  destruct (looks_good_total m (Py.sum [c0; c1; c2]) i c1) as [h1 Hh1].
  destruct (looks_good_total m (Py.sum [c0; c1; c2]) n c2) as [h2 Hh2].
  fold total in Hh0, Hh1, Hh2.
  assert (Hstart : calculate_strategy m st
    = bind (modify (set_target_value []))
        (fun _ =>
           bind (balance 0) (fun c0 =>
           bind (buy_or_sell b total c0 m 0) (fun s0 =>
           bind (modify (set_bonds_button s0)) (fun _ =>
           bind (balance 1) (fun c1 =>
           bind (buy_or_sell i total c1 m 1) (fun s1 =>
           bind (modify (set_international_button s1)) (fun _ =>
           bind (balance 2) (fun c2 =>
           bind (buy_or_sell n total c2 m 2) (fun s2 =>
           bind (modify (set_national_button s2)) (fun _ =>
           bind (allocation 0 total m) (fun a0 =>
           bind (allocation 1 total m) (fun a1 =>
           bind (allocation 2 total m) (fun a2 =>
           bind (append_row (Row [a0; a1; a2])) (fun _ =>
           bind (append_row TargetValueRow) (fun _ =>
           append_row (Row [percent b; percent i; percent n])))))))))))))))) st).
  { unfold calculate_strategy. unfold bind at 1, get. cbv beta iota.
    cbn [filename current_balances st]. rewrite Hglide. reflexivity. }
  unfold outcome. rewrite Hstart. clear Hstart.
  step_modify. step_balance.
  destruct (c0 =? 0)%float eqn:H0; [fund_is_empty|].
  step_fund H0 Hh0 Hrow. step_modify. step_balance.
  destruct (c1 =? 0)%float eqn:H1; [fund_is_empty|].
  step_fund H1 Hh1 Hrow. step_modify. step_balance.
  destruct (c2 =? 0)%float eqn:H2; [fund_is_empty|].
  step_fund H2 Hh2 Hrow. step_modify.
  destruct (total - m =? 0)%float eqn:Hsum.
  { erewrite bind_raise by (eapply allocation_zero; [reflexivity | exact Hsum]).
    reflexivity. }
  step_share Hsum. step_share Hsum. step_share Hsum.
  step_modify. step_modify.
  cbn [orb].
  rewrite (buy_or_sell_run _ _ _ _ 0 st _ _ _ H0 Hh0 Hrow eq_refl).
  rewrite (buy_or_sell_run _ _ _ _ 1 st _ _ _ H1 Hh1 Hrow eq_refl).
  rewrite (buy_or_sell_run _ _ _ _ 2 st _ _ _ H2 Hh2 Hrow eq_refl).
  eexists _, _, _. repeat split.
  unfold append_row, modify, record_target.
  cbn [snd info_table set_info_table set_national_button set_target_value
       set_international_button set_bonds_button target_value st app].
  now rewrite <- !app_assoc.
Qed.

(** X5: On a form with three balances and three fund names, when no balance is
    zero and the total less the new money is not zero, [calculate_strategy]
    returns: each button shows what [buy_or_sell] returns for its fund, the
    three targets are recorded, and the info table gets three more rows,
    the current allocations, the list of targets itself and the target
    allocations.  Balances and labels are left alone. *)
Theorem calculate_strategy_returns (m c0 c1 c2 : float) (n0 n1 n2 : string)
  (st : UiMainWindow) :
  current_balances st = [c0; c1; c2] ->
  nth_error (info_table st) 1 = Some (Row [n0; n1; n2]) ->
  (c0 =? 0)%float = false ->
  (c1 =? 0)%float = false ->
  (c2 =? 0)%float = false ->
  (m + Py.sum [c0; c1; c2] - m =? 0)%float = false ->
  let total := (m + Py.sum [c0; c1; c2])%float in
  let '(b, i, n) := glide_path (filename st) in
  let share c := Py.str (Py.round (100 * c / (total - m)) 2) ++ "%" in
  let target p := Py.str (Py.round (total * p) 2) in
  let percent p := Py.str (100 * p) ++ "%" in
  let st' := state_after (calculate_strategy m) st in
  outcome (calculate_strategy m) st = inr tt /\
  outcome (buy_or_sell b total c0 m 0) st = inr (bonds_button st') /\
  outcome (buy_or_sell i total c1 m 1) st = inr (international_button st') /\
  outcome (buy_or_sell n total c2 m 2) st = inr (national_button st') /\
  target_value st' = [target b; target i; target n] /\
  info_table st'
    = (info_table st
       ++ [Row [share c0; share c1; share c2]; TargetValueRow;
           Row [percent b; percent i; percent n]])%list /\
  current_balances st' = current_balances st /\
  error_label st' = error_label st /\
  info_label st' = info_label st.
Proof.
  intros Hbal Hrow H0 H1 H2 Hsum total.
  destruct (glide_path (filename st)) as [[b i] n] eqn:Hglide.
  pose proof (calculate_strategy_cases m c0 c1 c2 b i n n0 n1 n2 st
                Hbal Hrow Hglide) as Hrun.
  cbv zeta in Hrun. fold total in Hrun, Hsum.
  rewrite H0, H1, H2, Hsum in Hrun. cbn [orb] in Hrun.
  destruct Hrun as (s0 & s1 & s2 & Hs0 & Hs1 & Hs2 & Hrun).
  unfold state_after, outcome. rewrite Hrun.
  cbn [fst snd]. repeat split; assumption.
Qed.

Lemma calculate_strategy_returns_witness :
  info_table (state_after (calculate_strategy 25) loaded_even)
  = (info_table loaded_even
     ++ [Row ["33.33%"; "33.33%"; "33.33%"]; TargetValueRow;
         Row ["20.0%"; "30.0%"; "50.0%"]])%list.
Proof.
  pose proof (calculate_strategy_returns 25 100 100 100 "FXNAX" "FZILX" "FZROX"
                loaded_even) as H.
  vm_compute in H |- *.
  exact (proj1 (proj2 (proj2 (proj2 (proj2 (proj2
           (H eq_refl eq_refl eq_refl eq_refl eq_refl eq_refl))))))).
Defined.

(** X6: On a form with three balances and three fund names [calculate_strategy]
    can fail in one way only, by [ZeroDivisionError]: at line 33 when a
    balance is zero, and at line 128 when the total less the new money is
    zero, which float addition allows for a new money large enough to
    absorb the balances. *)
Theorem calculate_strategy_outcome (m c0 c1 c2 : float) (n0 n1 n2 : string)
  (st : UiMainWindow) :
  current_balances st = [c0; c1; c2] ->
  nth_error (info_table st) 1 = Some (Row [n0; n1; n2]) ->
  outcome (calculate_strategy m) st
  = if (c0 =? 0)%float || (c1 =? 0)%float || (c2 =? 0)%float
       || (m + Py.sum [c0; c1; c2] - m =? 0)%float
    then inl Py.ZeroDivisionError
    else inr tt.
Proof.
  intros Hbal Hrow.
  destruct (glide_path (filename st)) as [[b i] n] eqn:Hglide.
  pose proof (calculate_strategy_cases m c0 c1 c2 b i n n0 n1 n2 st
                Hbal Hrow Hglide) as Hrun.
  cbv zeta in Hrun.
  destruct ((c0 =? 0)%float || (c1 =? 0)%float || (c2 =? 0)%float
            || (m + Py.sum [c0; c1; c2] - m =? 0)%float); [exact Hrun|].
  destruct Hrun as (s0 & s1 & s2 & _ & _ & _ & Hrun).
  unfold outcome. now rewrite Hrun.
Qed.

Lemma calculate_strategy_outcome_witness :
  outcome (calculate_strategy 1e20) loaded_even = inl Py.ZeroDivisionError.
Proof.
  pose proof (calculate_strategy_outcome 1e20 100 100 100
                "FXNAX" "FZILX" "FZROX" loaded_even) as H.
  vm_compute in H |- *. exact (H eq_refl eq_refl).
Defined.

(** * What [calculate] leaves of the info table *)

Lemma calculate_with_returns (a : float) (st st' : UiMainWindow) :
  calculate_with a st = (inr tt, st') ->
  (no_data (current_balances st) = true /\
   st' = set_error_label "you did not enter a csv file" st) \/
  (no_data (current_balances st) = false /\
   exists st1 s,
     calculate_strategy a st = (inr tt, st1) /\
     for_each [0; 1; 2]%nat (fun _ _ => remove_last_row) tt
       (set_info_label s (set_error_label "Strategy Calculated" st1))
     = (inr tt, st')).
Proof.
  unfold calculate_with. unfold bind at 1, get. cbv beta iota.
  destruct (no_data (current_balances st)); cbn [negb].
  - intros H. left. split; [reflexivity|].
    unfold csv_file_error, modify in H. now injection H as <-.
  - intros H. right. split; [reflexivity|].
    apply bind_returns in H as ([] & st1 & Hs & H).
    apply bind_returns in H as ([] & st2 & Hm & H).
    unfold modify in Hm. injection Hm as <-.
    apply bind_returns in H as (s & st3 & Ht & H).
    apply (read_only_returns _ _ _ _ read_only_table_text) in Ht as ->.
    apply bind_returns in H as ([] & st4 & Hm & H).
    unfold modify in Hm. injection Hm as <-.
    now exists st1, s.
Qed.

(** X9: Whenever [calculate_with] returns, the info table has as many rows as
    before: repeated calculations never pile rows up. *)
Theorem calculate_keeps_row_count (a : float) (st : UiMainWindow) :
  outcome (calculate_with a) st = inr tt ->
  length (info_table (state_after (calculate_with a) st))
  = length (info_table st).
Proof.
  unfold outcome, state_after.
  destruct (calculate_with a st) as [[e|[]] st'] eqn:Hrun; [discriminate|].
  intros _. cbn [snd].
  apply calculate_with_returns in Hrun
    as [[_ ->] | (_ & st1 & s & Hs & Hloop)]; [reflexivity|].
  apply calculate_strategy_appends in Hs as (shares & percents & Htable).
  set (st2 := set_info_label s (set_error_label "Strategy Calculated" st1))
    in Hloop.
  destruct (removal_loop_length st2) as (table & Hrun & Hlen).
  { change (info_table st2) with (info_table st1).
    rewrite Htable, length_app. simpl. lia. }
  rewrite Hrun in Hloop. injection Hloop as <-.
  change (info_table st2) with (info_table st1) in Hlen.
  rewrite Htable, length_app in Hlen. simpl in Hlen.
  cbn [info_table set_info_table]. lia.
Qed.

Lemma calculate_keeps_row_count_witness :
  length (info_table (state_after (calculate_with 0) loaded_on_target))
  = length (info_table loaded_on_target).
Proof.
  apply (calculate_keeps_row_count 0 loaded_on_target).
  vm_compute. reflexivity.
Defined.

Lemma rows_differ_by_length (st : UiMainWindow) (r r' : row) :
  length (cells st r') <> length (cells st r) -> row_eqb st r' r = false.
Proof.
  intros Hlen. unfold row_eqb.
  destruct (list_eqb String.eqb (cells st r') (cells st r)) eqn:H;
    [|reflexivity].
  now apply list_eqb_length in H.
Qed.

Lemma rows_differ_by_first_cell (x y : string) (l l' : list string) :
  y <> x -> list_eqb String.eqb (x :: l) (y :: l') = false.
Proof.
  intros Hne. simpl.
  destruct (String.eqb_spec x y) as [->|_]; [contradiction | reflexivity].
Qed.

(** X10: On a form loaded from a file, a [calculate_with] that returns leaves
    the info table exactly as it was, provided neither the first symbol
    nor the first value of the file reads like the first cell of one of the
    three rows the calculation appends (a current allocation, a target, a
    target allocation). *)
Theorem calculate_restores_table (a c0 c1 c2 : float)
  (n0 n1 n2 v0 v1 v2 : string) (st : UiMainWindow) :
  info_table st = [Row header; Row [n0; n1; n2]; Row [v0; v1; v2]] ->
  current_balances st = [c0; c1; c2] ->
  outcome (calculate_with a) st = inr tt ->
  let total := (a + Py.sum [c0; c1; c2])%float in
  let bond := fst (fst (glide_path (filename st))) in
  let appended :=
    [Py.str (Py.round (100 * c0 / (total - a)) 2) ++ "%";
     Py.str (Py.round (total * bond) 2);
     Py.str (100 * bond) ++ "%"] in
  ~ In n0 appended ->
  ~ In v0 appended ->
  info_table (state_after (calculate_with a) st) = info_table st.
Proof.
  intros Htable Hbal Hret total bond appended Hn Hv.
  unfold outcome in Hret. unfold state_after.
  destruct (calculate_with a st) as [[e|[]] st'] eqn:Hrun; [discriminate|].
  clear Hret. cbn [snd].
  apply calculate_with_returns in Hrun
    as [[Hno _] | (_ & st1 & s & Hs & Hloop)];
    [rewrite Hbal in Hno; discriminate|].
  destruct (glide_path (filename st)) as [[b i] n] eqn:Hglide.
  assert (Hrow : nth_error (info_table st) 1 = Some (Row [n0; n1; n2]))
    by now rewrite Htable.
  pose proof (calculate_strategy_cases a c0 c1 c2 b i n n0 n1 n2 st
                Hbal Hrow Hglide) as Hcases.
  cbv zeta in Hcases. fold total in Hcases.
  destruct ((c0 =? 0)%float || (c1 =? 0)%float || (c2 =? 0)%float
            || (total - a =? 0)%float).
  { unfold outcome in Hcases. rewrite Hs in Hcases. discriminate. }
  destruct Hcases as (s0 & s1 & s2 & _ & _ & _ & Hfinal).
  rewrite Hfinal in Hs. injection Hs as <-.
  set (st1 := set_info_table _ _) in Hloop.
  set (st2 := set_info_label s (set_error_label "Strategy Calculated" st1))
    in Hloop.
  rewrite (removal_loop_restores st2 (info_table st) _ _ _ eq_refl) in Hloop.
  - injection Hloop as <-. reflexivity.
  - cbn [bond fst] in appended.
    assert (Hn' := Hn). assert (Hv' := Hv).
    unfold appended in Hn', Hv'. cbn [In] in Hn', Hv'.
    intros r r' Hr Hr'. rewrite Htable in Hr.
    destruct Hr as [<- | [<- | [<- | []]]];
      destruct Hr' as [<- | [<- | [<- | []]]];
      try (apply rows_differ_by_length; cbn; discriminate);
      unfold row_eqb; cbn [cells target_value st2 st1 set_info_label
        set_error_label set_info_table set_national_button
        set_international_button set_bonds_button set_target_value];
      apply rows_differ_by_first_cell; intros Heq; symmetry in Heq; tauto.
Qed.

Lemma calculate_restores_table_witness :
  info_table (state_after (calculate_with 25) loaded_even)
  = info_table loaded_even.
Proof.
  refine (calculate_restores_table 25 100 100 100 "FXNAX" "FZILX" "FZROX"
            "$100.00" "$100.00" "$100.00" loaded_even _ _ _ _ _);
    try (vm_compute; reflexivity);
    vm_compute; intros [H | [H | [H | []]]]; discriminate H.
Defined.

(** * Loading a file *)

Lemma index_ok {A} (l : list A) (i : nat) (a : A) (st : UiMainWindow) :
  nth_error l i = Some a -> index l i st = (inr a, st).
Proof. intros H. unfold index. now rewrite H. Qed.

(** One turn of the loop on a row that has a symbol and a value that reads
    as a number. *)
Lemma scrape_row_ok (csv_list : csv_rows) (names values r : list string)
  (i : nat) (name value : string) (x : float) (st : UiMainWindow) :
  nth_error csv_list i = Some r ->
  nth_error r 6 = Some value ->
  nth_error r 1 = Some name ->
  length values = i - 2 ->
  Py.float (Py.remove_char "$" value) = Some x ->
  scrape_row csv_list (names, values) i st
  = (inr ((names ++ [name])%list, (values ++ [value])%list),
     set_current_balances (current_balances st ++ [x])%list st).
Proof.
  intros Hr Hv Hn Hlen Hx. unfold scrape_row.
  rewrite (bind_ok _ _ st st r) by now apply index_ok.
  rewrite (bind_ok _ _ st st value) by now apply index_ok.
  rewrite (bind_ok _ _ st st value).
  2:{ apply index_ok. rewrite nth_error_app2 by lia.
      now rewrite Hlen, Nat.sub_diag. }
  rewrite (bind_ok _ _ st st x) by (unfold to_float; now rewrite Hx).
  set (st1 := set_current_balances (current_balances st ++ [x])%list st).
  rewrite (bind_ok _ _ st st1 tt) by reflexivity.
  rewrite (bind_ok _ _ st1 st1 r) by now apply index_ok.
  rewrite (bind_ok _ _ st1 st1 name) by now apply index_ok.
  reflexivity.
Qed.

(** X1: A file whose rows 2, 3 and 4 have a symbol in column 1 and, in column
    6, a value that reads as a number once its dollar signs are dropped, is
    loaded: the balances are these three numbers, the info table is the
    heading, the symbols and the values as written, and the label shows the
    file name.  Whatever was loaded before is replaced; the last results
    stay on the buttons. *)
Theorem open_csv_loads (disk : string -> option csv_rows) (chosen : string)
  (rows : csv_rows) (r2 r3 r4 : list string) (n2 n3 n4 v2 v3 v4 : string)
  (x2 x3 x4 : float) (st : UiMainWindow) :
  disk chosen = Some rows ->
  nth_error rows 2 = Some r2 ->
  nth_error rows 3 = Some r3 ->
  nth_error rows 4 = Some r4 ->
  nth_error r2 1 = Some n2 -> nth_error r2 6 = Some v2 ->
  nth_error r3 1 = Some n3 -> nth_error r3 6 = Some v3 ->
  nth_error r4 1 = Some n4 -> nth_error r4 6 = Some v4 ->
  Py.float (Py.remove_char "$" v2) = Some x2 ->
  Py.float (Py.remove_char "$" v3) = Some x3 ->
  Py.float (Py.remove_char "$" v4) = Some x4 ->
  open_csv disk chosen st
  = (inr tt,
     mkUi [Row header; Row [n2; n3; n4]; Row [v2; v3; v4]] [x2; x3; x4]
       (target_value st) chosen (entry_lineEdit st) chosen (info_label st)
       (bonds_button st) (international_button st) (national_button st)
       (clipboard st)).
Proof.
  intros Hdisk Hr2 Hr3 Hr4 Hn2 Hv2 Hn3 Hv3 Hn4 Hv4 Hx2 Hx3 Hx4.
  unfold open_csv.
  set (st0 := set_filename chosen st).
  rewrite (bind_ok _ _ st st0 tt) by reflexivity.
  eassert (Hs : scrape_values_from_csv disk st0 = _).
  { unfold scrape_values_from_csv.
    rewrite (bind_ok _ _ st0 (set_current_balances [] st0) tt) by reflexivity.
    unfold bind at 1, get. cbv beta iota.
    change (filename (set_current_balances [] st0)) with chosen.
    rewrite Hdisk. step_modify. cbn [for_each].
    erewrite bind_ok.
    2:{ erewrite bind_ok
          by (eapply (scrape_row_ok rows [] [] r2 2); eassumption || reflexivity).
        erewrite bind_ok
          by (eapply (scrape_row_ok rows [n2] [v2] r3 3); eassumption || reflexivity).
        erewrite bind_ok
          by (eapply (scrape_row_ok rows [n2; n3] [v2; v3] r4 4);
              eassumption || reflexivity).
        reflexivity. }
    step_modify. reflexivity. }
  rewrite (bind_ok _ _ _ _ _ Hs).
  unfold bind, get. cbv beta iota. reflexivity.
Qed.

Lemma open_csv_loads_witness :
  open_csv sample_disk "Portfolio_2020.csv" init
  = (inr tt,
     mkUi [Row header; Row ["FXNAX"; "FZILX"; "FZROX"];
           Row ["$100.00"; "$100.00"; "$100.00"]]
       [100; 100; 100]%float [] "Portfolio_2020.csv" "" "Portfolio_2020.csv"
       "" "" "" "" "").
Proof.
  apply (open_csv_loads sample_disk "Portfolio_2020.csv" even_positions
           (position "FXNAX" "$100.00") (position "FZILX" "$100.00")
           (position "FZROX" "$100.00"));
    vm_compute; reflexivity.
Defined.

(** * What the copy methods give for a button text *)

Lemma span_digits_all (d rest : string) :
  all_digits d = true -> starts_with_digit rest = false ->
  Re.span_digits (d ++ rest) = (d, rest).
Proof.
  intros Hd Hrest. induction d as [|c d IH]; simpl.
  - destruct rest as [|c rest]; [reflexivity|].
    simpl in Hrest |- *. now rewrite Hrest.
  - simpl in Hd. apply andb_prop in Hd as [Hc Hd].
    now rewrite Hc, (IH Hd).
Qed.

Lemma findall_unfold (c : ascii) (s : string) :
  Re.findall (String c s)
  = match Re.match_numbers (String c s) with
    | Some (m, rest) => m :: Re.findall_fuel (S (String.length s)) rest
    | None => Re.findall s
    end.
Proof. reflexivity. Qed.

Lemma findall_skip (c : ascii) (s : string) :
  Py.is_digit c = false -> Re.findall (String c s) = Re.findall s.
Proof.
  intros Hc. rewrite findall_unfold.
  unfold Re.match_numbers. cbn [Re.span_digits]. rewrite Hc.
  cbn [String.eqb]. reflexivity.
Qed.

Lemma findall_no_digit (s : string) : no_digit s = true -> Re.findall s = [].
Proof.
  induction s as [|c s IH]; [reflexivity|]. simpl. intros H.
  apply andb_prop in H as [Hc Hs]. apply negb_true_iff in Hc.
  rewrite (findall_skip c s Hc). now apply IH.
Qed.

Lemma findall_skip_all (pre s : string) :
  no_digit pre = true -> Re.findall (pre ++ s) = Re.findall s.
Proof.
  induction pre as [|c pre IH]; [reflexivity|]. simpl. intros H.
  apply andb_prop in H as [Hc Hs]. apply negb_true_iff in Hc.
  rewrite (findall_skip c _ Hc). now apply IH.
Qed.

Lemma findall_decimal (whole frac rest : string) :
  all_digits whole = true -> whole <> "" ->
  all_digits frac = true -> frac <> "" ->
  starts_with_digit rest = false ->
  Re.findall (whole ++ "." ++ frac ++ rest)
  = (whole ++ "." ++ frac) :: Re.findall rest.
Proof.
  intros Hw Hwne Hf Hfne Hrest.
  assert (Hm : Re.match_numbers (whole ++ "." ++ frac ++ rest)
               = Some (whole ++ "." ++ frac, rest)).
  { unfold Re.match_numbers.
    rewrite (span_digits_all whole ("." ++ frac ++ rest) Hw eq_refl).
    destruct (String.eqb_spec whole ""); [contradiction|].
    cbn [append]. rewrite (span_digits_all frac rest Hf Hrest).
    destruct (String.eqb_spec frac ""); [contradiction | reflexivity]. }
  destruct whole as [|c whole]; [contradiction|].
  cbn [append] in Hm |- *. rewrite findall_unfold, Hm. f_equal.
  apply findall_fuel_enough. rewrite !length_append. simpl.
  rewrite length_append. lia.
Qed.

(** X12: For a Buy or Sell text whose amount is digits, a point and digits and
    whose fund name is ASCII text without a digit, the copy methods put
    exactly the amount on the clipboard; for a Hold text they empty it. *)
Theorem copy_gives_amount (whole frac name : string) :
  all_digits whole = true -> whole <> "" ->
  all_digits frac = true -> frac <> "" ->
  ascii_text name = true -> no_digit name = true ->
  copied (buy_text (whole ++ "." ++ frac) name) = whole ++ "." ++ frac /\
  copied (sell_text (whole ++ "." ++ frac) name) = whole ++ "." ++ frac /\
  copied (hold_text name) = "".
Proof.
  intros Hw Hwne Hf Hfne _ Hname.
  assert (Hrest : Re.findall (" " ++ name) = []).
  { apply findall_no_digit. simpl. exact Hname. }
  assert (Hamount : forall pre, no_digit pre = true ->
            copied (pre ++ (whole ++ "." ++ frac) ++ " " ++ name)
            = whole ++ "." ++ frac).
  { intros pre Hpre. unfold copied. rewrite (findall_skip_all pre _ Hpre).
    rewrite !append_assoc.
    rewrite (findall_decimal whole frac (" " ++ name) Hw Hwne Hf Hfne eq_refl).
    rewrite Hrest. simpl. now rewrite append_empty_r. }
  repeat split.
  - apply (Hamount "Buy $"). reflexivity.
  - apply (Hamount "Sell $"). reflexivity.
  - unfold copied, hold_text.
    rewrite (findall_skip_all "Looks good for " name eq_refl).
    now rewrite (findall_no_digit name Hname).
Qed.

Lemma copy_gives_amount_witness :
  copied (buy_text ("50" ++ "." ++ "0") "FZROX") = "50" ++ "." ++ "0".
Proof.
  apply (copy_gives_amount "50" "0" "FZROX"); reflexivity || discriminate.
Defined.

(** * An amount that is not a number *)

Lemma nan_add (x : float) : (nan + x)%float = nan.
Proof. apply Prim2SF_inj. rewrite add_spec. reflexivity. Qed.

Lemma nan_mul (x : float) : (nan * x)%float = nan.
Proof. apply Prim2SF_inj. rewrite mul_spec. reflexivity. Qed.

Lemma nan_div (x : float) : (nan / x)%float = nan.
Proof. apply Prim2SF_inj. rewrite div_spec. reflexivity. Qed.

Lemma div_nan (x : float) : (x / nan)%float = nan.
Proof.
  apply Prim2SF_inj. rewrite div_spec. change (Prim2SF nan) with S754_nan.
  unfold SF64div, SFdiv. now destruct (Prim2SF x).
Qed.

Lemma sub_nan (x : float) : (x - nan)%float = nan.
Proof.
  apply Prim2SF_inj. rewrite sub_spec. change (Prim2SF nan) with S754_nan.
  unfold SF64sub, SFsub. now destruct (Prim2SF x).
Qed.

(** X7: The text [nan] passes for an amount.  With it, on a form with three
    balances, none of them zero, [calculate_strategy] returns and tells
    to sell [$nan] of every fund; the recorded targets are [nan]. *)
Theorem nan_amount_sells_nan (c0 c1 c2 : float) (n0 n1 n2 : string)
  (st : UiMainWindow) :
  current_balances st = [c0; c1; c2] ->
  nth_error (info_table st) 1 = Some (Row [n0; n1; n2]) ->
  (c0 =? 0)%float = false ->
  (c1 =? 0)%float = false ->
  (c2 =? 0)%float = false ->
  let st' := state_after (calculate_strategy nan) st in
  Py.float "nan" = Some nan /\
  outcome (calculate_strategy nan) st = inr tt /\
  bonds_button st' = sell_text "nan" n0 /\
  international_button st' = sell_text "nan" n1 /\
  national_button st' = sell_text "nan" n2 /\
  target_value st' = ["nan"; "nan"; "nan"].
Proof.
  intros Hbal Hrow H0 H1 H2 st'. split; [reflexivity|].
  destruct (glide_path (filename st)) as [[b i] n] eqn:Hglide.
  pose proof (calculate_strategy_cases nan c0 c1 c2 b i n n0 n1 n2 st
                Hbal Hrow Hglide) as Hrun.
  cbv zeta in Hrun. rewrite nan_add in Hrun.
  rewrite H0, H1, H2 in Hrun.
  change (nan - nan =? 0)%float with false in Hrun. cbn [orb] in Hrun.
  destruct Hrun as (s0 & s1 & s2 & Hs0 & Hs1 & Hs2 & Hrun).
  assert (Hsell : forall p c key name,
            (c =? 0)%float = false ->
            nth_error [n0; n1; n2] key = Some name ->
            outcome (buy_or_sell p nan c nan key) st
            = inr (sell_text "nan" name)).
  { intros p c key name Hc Hname. unfold outcome.
    rewrite (buy_or_sell_run p nan c nan key st [n0; n1; n2] name false Hc);
      trivial.
    - rewrite nan_mul, nan_div, sub_nan. reflexivity.
    - rewrite nan_mul, nan_div. reflexivity. }
  rewrite (Hsell b c0 0 n0 H0 eq_refl) in Hs0. injection Hs0 as <-.
  rewrite (Hsell i c1 1 n1 H1 eq_refl) in Hs1. injection Hs1 as <-.
  rewrite (Hsell n c2 2 n2 H2 eq_refl) in Hs2. injection Hs2 as <-.
  unfold st', state_after, outcome. rewrite Hrun. cbn [fst snd].
  repeat split.
  cbn [target_value set_info_table set_national_button
       set_international_button set_bonds_button set_target_value].
  rewrite !nan_mul. reflexivity.
Qed.

Lemma nan_amount_sells_nan_witness :
  bonds_button (state_after (calculate_strategy nan) loaded_even)
  = sell_text "nan" "FXNAX".
Proof.
  refine (proj1 (proj2 (proj2
    (nan_amount_sells_nan 100 100 100 "FXNAX" "FZILX" "FZROX" loaded_even
       _ _ _ _ _)))); vm_compute; reflexivity.
Defined.

(** * What [float] accepts *)

Lemma forallb_append (p : ascii -> bool) (a b : string) :
  string_forallb p (a ++ b) = string_forallb p a && string_forallb p b.
Proof.
  induction a as [|c a IH]; simpl; [reflexivity|].
  now rewrite IH, andb_assoc.
Qed.

Lemma forallb_rev_onto (p : ascii -> bool) (s acc : string) :
  string_forallb p (Py.rev_onto s acc)
  = string_forallb p s && string_forallb p acc.
Proof.
  revert acc; induction s as [|c s IH]; intros acc; simpl; [reflexivity|].
  rewrite IH. simpl. rewrite !andb_assoc. f_equal. apply andb_comm.
Qed.

Lemma forallb_rev (p : ascii -> bool) (s : string) :
  string_forallb p (Py.rev_string s) = string_forallb p s.
Proof. unfold Py.rev_string. rewrite forallb_rev_onto. simpl. apply andb_true_r. Qed.

Lemma forallb_lstrip (p : ascii -> bool) (s : string) :
  (forall c, Py.is_space c = true -> p c = true) ->
  string_forallb p (Py.lstrip s) = true -> string_forallb p s = true.
Proof.
  intros Hsp. induction s as [|c s IH]; simpl; [trivial|].
  destruct (Py.is_space c) eqn:Hc; [|trivial].
  intros H. now rewrite (Hsp c Hc), (IH H).
Qed.

Lemma forallb_strip (p : ascii -> bool) (s : string) :
  (forall c, Py.is_space c = true -> p c = true) ->
  string_forallb p (Py.strip s) = true -> string_forallb p s = true.
Proof.
  intros Hsp H. unfold Py.strip in H. rewrite forallb_rev in H.
  apply (forallb_lstrip p _ Hsp) in H. rewrite forallb_rev in H.
  now apply (forallb_lstrip p _ Hsp).
Qed.

Lemma forallb_drop_underscores (p : ascii -> bool) (prev : ascii)
  (s s' : string) :
  p "_"%char = true ->
  Py.drop_underscores prev s = Some s' ->
  string_forallb p s' = true -> string_forallb p s = true.
Proof.
  intros Hu. revert prev s'. induction s as [|c s IH]; intros prev s'; simpl;
    [trivial|].
  destruct (Ascii.eqb_spec c "_") as [->|Hc].
  - destruct (Py.is_digit prev); [|discriminate].
    intros H Hs'. now rewrite Hu, (IH _ _ H Hs').
  - destruct (Ascii.eqb prev "_" && negb (Py.is_digit c)); [discriminate|].
    destruct (Py.drop_underscores c s) as [t|] eqn:Ht; [|discriminate].
    simpl. intros H. injection H as <-. simpl. intros Hs'.
    apply andb_prop in Hs' as [Hpc Hs']. now rewrite Hpc, (IH _ _ Ht Hs').
Qed.

Lemma forallb_take_digits (p : ascii -> bool) (s rest : string) (acc n a k : Z) :
  (forall c, Py.is_digit c = true -> p c = true) ->
  Py.take_digits s acc n = (a, k, rest) ->
  string_forallb p rest = true -> string_forallb p s = true.
Proof.
  intros Hd. revert acc n. induction s as [|c s IH]; intros acc n; simpl.
  - intros H. now injection H as _ _ <-.
  - destruct (Py.is_digit c) eqn:Hc.
    + intros H Hrest. now rewrite (Hd c Hc), (IH _ _ H Hrest).
    + intros H. injection H as _ _ <-. trivial.
Qed.

Lemma forallb_take_sign (p : ascii -> bool) (s s1 : string) (neg : bool) :
  p "+"%char = true -> p "-"%char = true ->
  Py.take_sign s = (neg, s1) ->
  string_forallb p s1 = true -> string_forallb p s = true.
Proof.
  intros Hplus Hminus. unfold Py.take_sign.
  destruct s as [|c s]; [intros H; now injection H as _ <-|].
  destruct (Ascii.eqb_spec c "-") as [->|Hm].
  { intros H. injection H as _ <-. intros Hs. simpl. now rewrite Hminus. }
  destruct (Ascii.eqb_spec c "+") as [->|Hp].
  { intros H. injection H as _ <-. intros Hs. simpl. now rewrite Hplus. }
  assert (Hother : match c with
                   | "-"%char => (true, s)
                   | "+"%char => (false, s)
                   | _ => (false, String c s)
                   end = (false, String c s)).
  { destruct c as [[] [] [] [] [] [] [] []]; try reflexivity; congruence. }
  rewrite Hother. intros H. now injection H as _ <-.
Qed.

Lemma number_char_digit (c : ascii) :
  Py.is_digit c = true -> number_char c = true.
Proof. intros H. unfold number_char. now rewrite H. Qed.

Lemma number_char_space (c : ascii) :
  Py.is_space c = true -> number_char c = true.
Proof.
  intros H. unfold number_char. rewrite H, orb_true_r. reflexivity.
Qed.

Lemma forallb_take_exponent (s rest : string) (ex : Z) :
  Py.take_exponent s = (ex, rest) ->
  string_forallb number_char rest = true ->
  string_forallb number_char s = true.
Proof.
  unfold Py.take_exponent. destruct s as [|c s]; [intros H; now injection H as _ <-|].
  destruct (Ascii.eqb c "e" || Ascii.eqb c "E") eqn:He;
    [|intros H; now injection H as _ <-].
  destruct (Py.take_sign s) as [neg s'] eqn:Hsign.
  destruct (Py.take_digits s' 0 0) as [[e n] r] eqn:Hdig.
  destruct (0 <? n)%Z; [|intros H; now injection H as _ <-].
  intros H. injection H as _ <-. intros Hr.
  apply (forallb_take_digits number_char _ _ _ _ _ _ number_char_digit Hdig) in Hr.
  apply (forallb_take_sign number_char _ _ _ eq_refl eq_refl Hsign) in Hr.
  simpl. rewrite Hr, andb_true_r.
  apply orb_prop in He as [He | He]; apply Ascii.eqb_eq in He; now subst c.
Qed.

Lemma word_letter_lower (c : ascii) :
  word_letter (Py.lower c) = true -> number_char c = true.
Proof.
  destruct c as [[] [] [] [] [] [] [] []]; vm_compute; trivial.
Qed.

Lemma substring_all (s : string) : substring 0 (String.length s) s = s.
Proof. induction s as [|c s IH]; simpl; [reflexivity | now rewrite IH]. Qed.

Lemma drop_cons (n : nat) (c : ascii) (s : string) :
  Py.drop (S n) (String c s) = Py.drop n s.
Proof. reflexivity. Qed.

(** A text that reads as the word [w], whatever the case, and nothing
    more. *)
Lemma forallb_word (w s : string) :
  string_forallb word_letter w = true ->
  prefix w (Py.map_string Py.lower s) = true ->
  Py.drop (String.length w) s = "" ->
  string_forallb number_char s = true.
Proof.
  revert s. induction w as [|a w IH]; intros s Hw Hpre Hdrop.
  - unfold Py.drop in Hdrop. simpl in Hdrop. rewrite Nat.sub_0_r in Hdrop.
    rewrite substring_all in Hdrop. now subst s.
  - destruct s as [|c s]; [discriminate Hpre|].
    simpl in Hw. apply andb_prop in Hw as [Ha Hw].
    cbn [Py.map_string prefix] in Hpre.
    destruct (ascii_dec a (Py.lower c)) as [->|]; [|discriminate].
    cbn [String.length] in Hdrop. rewrite drop_cons in Hdrop.
    simpl. now rewrite (word_letter_lower c Ha), (IH s Hw Hpre Hdrop).
Qed.

Lemma forallb_strtod (s : string) (x : float) :
  Py.strtod s = Some (x, "") -> string_forallb number_char s = true.
Proof.
  unfold Py.strtod.
  destruct (Py.take_sign s) as [neg s1] eqn:Hsign.
  destruct (Py.take_digits s1 0 0) as [[ip ni] s2] eqn:Hint.
  intros H.
  apply (forallb_take_sign number_char _ _ _ eq_refl eq_refl Hsign).
  destruct (match s2 with
            | String "." s2' => Py.take_digits s2' ip 0
            | _ => (ip, 0%Z, s2)
            end) as [[mant nf] s3] eqn:Hfrac.
  destruct (0 <? ni + nf)%Z.
  - destruct (Py.take_exponent s3) as [ex rest] eqn:Hexp.
    injection H as _ ->.
    apply (forallb_take_digits number_char _ _ _ _ _ _ number_char_digit Hint).
    assert (H3 : string_forallb number_char s3 = true)
      by (now apply (forallb_take_exponent s3 "" ex Hexp)).
    destruct s2 as [|c s2']; [now injection Hfrac as _ _ <-|].
    destruct (Ascii.eqb_spec c ".") as [->|Hc].
    + simpl.
      now apply (forallb_take_digits number_char _ _ _ _ _ _
                   number_char_digit Hfrac).
    + assert (Hother : match c with
                       | "."%char => Py.take_digits s2' ip 0
                       | _ => (ip, 0%Z, String c s2')
                       end = (ip, 0%Z, String c s2')).
      { destruct c as [[] [] [] [] [] [] [] []]; try reflexivity; congruence. }
      rewrite Hother in Hfrac. now injection Hfrac as _ _ <-.
  - destruct (prefix "infinity" (Py.map_string Py.lower s1)) eqn:H8.
    { injection H as _ H. now apply (forallb_word "infinity"). }
    destruct (prefix "inf" (Py.map_string Py.lower s1)) eqn:H3.
    { injection H as _ H. now apply (forallb_word "inf"). }
    destruct (prefix "nan" (Py.map_string Py.lower s1)) eqn:Hn; [|discriminate].
    injection H as _ H. now apply (forallb_word "nan").
Qed.

(** A text that [float] accepts is made of digits, blanks, signs, points,
    underscores, [e] and the letters of [inf], [infinity] and [nan]. *)
Lemma float_accepts_number_chars (text : string) (x : float) :
  Py.float text = Some x -> string_forallb number_char text = true.
Proof.
  unfold Py.float.
  destruct (Py.drop_underscores zero (Py.strip text)) as [s|] eqn:Hu;
    [|discriminate].
  destruct (Py.strtod s) as [[y rest]|] eqn:Hs; [|discriminate].
  destruct rest; [|discriminate]. intros _.
  apply forallb_strtod in Hs.
  apply (forallb_drop_underscores number_char _ _ _ eq_refl Hu) in Hs.
  now apply (forallb_strip number_char _ number_char_space).
Qed.

Lemma forallb_occurs (p : ascii -> bool) (c : ascii) (s : string) :
  p c = false -> occurs_in (String c "") s -> string_forallb p s = false.
Proof.
  intros Hc (pre & post & ->). rewrite forallb_append. simpl.
  rewrite Hc. apply andb_false_r.
Qed.

Lemma remove_char_append (c : ascii) (a b : string) :
  Py.remove_char c (a ++ b) = Py.remove_char c a ++ Py.remove_char c b.
Proof.
  induction a as [|d a IH]; simpl; [reflexivity|].
  destruct (Ascii.eqb d c); [exact IH | simpl; now rewrite IH].
Qed.

Lemma occurs_after_remove_char (bad c : ascii) (s : string) :
  bad <> c -> occurs_in (String bad "") s ->
  occurs_in (String bad "") (Py.remove_char c s).
Proof.
  intros Hne (pre & post & ->).
  exists (Py.remove_char c pre), (Py.remove_char c post).
  rewrite remove_char_append. simpl.
  destruct (Ascii.eqb_spec bad c); [contradiction | reflexivity].
Qed.

(** A value with a comma in it is no number for [float], with or without
    its dollar signs. *)
Lemma float_refuses_comma (value : string) :
  occurs_in "," value -> Py.float (Py.remove_char "$" value) = None.
Proof.
  intros Hocc.
  apply (occurs_after_remove_char "," "$") in Hocc; [|discriminate].
  destruct (Py.float (Py.remove_char "$" value)) as [x|] eqn:Hx; [|reflexivity].
  apply float_accepts_number_chars in Hx.
  rewrite (forallb_occurs number_char "," _ eq_refl Hocc) in Hx. discriminate.
Qed.

(** * A value with a thousands separator *)

Lemma scrape_row_comma (rows : csv_rows) (names values r : list string)
  (value : string) (i : nat) (st : UiMainWindow) :
  nth_error rows i = Some r ->
  nth_error r 6 = Some value ->
  length values = i - 2 ->
  occurs_in "," value ->
  scrape_row rows (names, values) i st = (inl Py.ValueError, st).
Proof.
  intros Hr Hv Hlen Hocc. unfold scrape_row.
  rewrite (bind_ok _ _ st st r) by (unfold index; now rewrite Hr).
  rewrite (bind_ok _ _ st st value) by (unfold index; now rewrite Hv).
  rewrite (bind_ok _ _ st st value).
  2:{ unfold index. rewrite nth_error_app2 by lia.
      now rewrite Hlen, Nat.sub_diag. }
  apply bind_raise. unfold to_float. now rewrite (float_refuses_comma value Hocc).
Qed.

Lemma scrape_row_grows (rows : csv_rows) (names values : list string)
  (i : nat) (st st' : UiMainWindow) (t : list string * list string) :
  scrape_row rows (names, values) i st = (inr t, st') ->
  exists name value, t = ((names ++ [name])%list, (values ++ [value])%list).
Proof.
  unfold scrape_row. intros H.
  apply bind_returns in H as (r & st1 & _ & H).
  apply bind_returns in H as (value & st2 & _ & H).
  apply bind_returns in H as (b & st3 & _ & H).
  apply bind_returns in H as (x & st4 & _ & H).
  apply bind_returns in H as ([] & st5 & _ & H).
  apply bind_returns in H as (r' & st6 & _ & H).
  apply bind_returns in H as (name & st7 & _ & H).
  unfold ret in H. injection H as <- _. now exists name, value.
Qed.

Lemma scrape_comma (disk : string -> option csv_rows) (rows : csv_rows)
  (k : nat) (r : list string) (value : string) (st : UiMainWindow) :
  disk (filename st) = Some rows ->
  In k [2; 3; 4] ->
  nth_error rows k = Some r ->
  nth_error r 6 = Some value ->
  occurs_in "," value ->
  exists e st',
    scrape_values_from_csv disk st = (inl e, st') /\
    (e = Py.IndexError \/ e = Py.ValueError) /\
    error_label st' = error_label st /\
    info_table st' = [Row header] /\
    length (current_balances st') <= k - 2.
Proof.
  intros Hdisk Hk Hr Hv Hocc.
  unfold scrape_values_from_csv.
  set (sta := set_current_balances [] st).
  rewrite (bind_ok _ _ st sta tt) by reflexivity.
  unfold bind at 1, get. cbv beta iota.
  change (filename sta) with (filename st). rewrite Hdisk.
  set (st1 := set_info_table [Row header] sta).
  rewrite (bind_ok _ _ sta st1 tt) by reflexivity.
  cbn [for_each].
  assert (Hk' : k = 2 \/ k = 3 \/ k = 4) by (simpl in Hk; intuition).
  destruct (Nat.eq_dec k 2) as [->|Hk2].
  { exists Py.ValueError, st1. split; [|repeat split; auto; simpl; lia].
    do 2 apply bind_raise. now apply (scrape_row_comma rows [] [] r value 2). }
  destruct (scrape_row_cases rows ([], []) 2 st1)
    as [(e & He & Hkind) | (t2 & x2 & H2 & _)].
  { exists e, st1. split; [|repeat split; auto; simpl; lia].
    now do 2 apply bind_raise. }
  destruct (scrape_row_grows _ _ _ _ _ _ _ H2) as (n2 & v2 & ->).
  set (st2 := set_current_balances _ st1) in H2.
  destruct (Nat.eq_dec k 3) as [->|Hk3].
  { exists Py.ValueError, st2. split; [|repeat split; auto; simpl; lia].
    apply bind_raise. rewrite (bind_ok _ _ _ _ _ H2). apply bind_raise.
    now apply (scrape_row_comma rows _ _ r value 3). }
  assert (k = 4) by lia. subst k.
  destruct (scrape_row_cases rows ([] ++ [n2], [] ++ [v2])%list 3 st2)
    as [(e & He & Hkind) | (t3 & x3 & H3 & _)].
  { exists e, st2. split; [|repeat split; auto; simpl; lia].
    apply bind_raise. rewrite (bind_ok _ _ _ _ _ H2).
    now apply bind_raise. }
  destruct (scrape_row_grows _ _ _ _ _ _ _ H3) as (n3 & v3 & ->).
  set (st3 := set_current_balances _ st2) in H3.
  exists Py.ValueError, st3. split; [|repeat split; auto; simpl; lia].
  apply bind_raise.
  rewrite (bind_ok _ _ _ _ _ H2), (bind_ok _ _ _ _ _ H3). apply bind_raise.
  now apply (scrape_row_comma rows _ _ r value 4).
Qed.

(** X2: A file in which the value of one of the three funds is written with a
    comma, as in [$1,234.56], is never loaded: [open_csv] raises, at that
    value with [ValueError] if not before, and shows no message. *)
Theorem thousands_separator_refused (disk : string -> option csv_rows)
  (chosen : string) (rows : csv_rows) (k : nat) (r : list string)
  (value : string) (st : UiMainWindow) :
  disk chosen = Some rows ->
  In k [2; 3; 4] ->
  nth_error rows k = Some r ->
  nth_error r 6 = Some value ->
  occurs_in "," value ->
  exists e st',
    open_csv disk chosen st = (inl e, st') /\
    (e = Py.IndexError \/ e = Py.ValueError) /\
    error_label st' = error_label st /\
    info_table st' = [Row header] /\
    length (current_balances st') <= k - 2.
Proof.
  intros Hdisk Hk Hr Hv Hocc. unfold open_csv.
  set (st0 := set_filename chosen st).
  rewrite (bind_ok _ _ st st0 tt) by reflexivity.
  destruct (scrape_comma disk rows k r value st0 Hdisk Hk Hr Hv Hocc)
    as (e & st' & Hrun & Hkind & Hlabel & Htable & Hbal).
  exists e, st'. split; [now apply bind_raise|]. repeat split; auto.
Qed.

Lemma thousands_separator_refused_witness :
  exists e st',
    open_csv
      (fun _ => Some [csv_heading; position "SPAXX" "$5.00";
                      position "FXNAX" "$900.00";
                      position "FZILX" "$1,234.56";
                      position "FZROX" "$2,000.00"; []])
      "Portfolio_2030.csv" loaded_even = (inl e, st') /\
    (e = Py.IndexError \/ e = Py.ValueError) /\
    error_label st' = error_label loaded_even /\
    info_table st' = [Row header] /\
    length (current_balances st') <= 3 - 2.
Proof.
  eapply (thousands_separator_refused _ "Portfolio_2030.csv" _ 3
            (position "FZILX" "$1,234.56") "$1,234.56").
  - reflexivity.
  - simpl. tauto.
  - reflexivity.
  - reflexivity.
  - exists "$1", "234.56". reflexivity.
Defined.

(** * Amounts that are refused *)

(** X11: An amount in ASCII text with a character that no number is written
    with (a dollar sign, a comma, a letter other than those of [e], [inf]
    and [nan]) is reported as not valid, and nothing else of the form
    changes. *)
Theorem amount_with_other_characters_refused (st : UiMainWindow) :
  ascii_text (entry_lineEdit st) = true ->
  string_forallb number_char (entry_lineEdit st) = false ->
  calculate st
  = (inr tt, set_error_label "You did not enter a valid amount" st).
Proof.
  intros _ Hbad. unfold calculate, bind, get.
  destruct (Py.float (entry_lineEdit st)) as [x|] eqn:Hx.
  - apply float_accepts_number_chars in Hx. congruence.
  - destruct (String.eqb_spec (entry_lineEdit st) "") as [Hblank|_];
      [|reflexivity].
    rewrite Hblank in Hbad. discriminate.
Qed.

Lemma amount_with_other_characters_refused_witness :
  calculate (type_amount "$250" loaded_even)
  = (inr tt,
     set_error_label "You did not enter a valid amount"
       (type_amount "$250" loaded_even)).
Proof.
  apply (amount_with_other_characters_refused (type_amount "$250" loaded_even));
    reflexivity.
Defined.

(** * After a file that was not loaded *)

(** X3: When the chosen file cannot be opened, [open_csv] returns with the
    no-data flag for balances and the message on the label; the info table
    still holds the rows of the file loaded before.  From then on
    [calculate_with] only repeats the message, whatever the amount. *)
Theorem missing_file_blocks_calculate (disk : string -> option csv_rows)
  (chosen : string) (a : float) (st : UiMainWindow) :
  disk chosen = None ->
  let st1 := state_after (open_csv disk chosen) st in
  outcome (open_csv disk chosen) st = inr tt /\
  current_balances st1 = [(-1)%float] /\
  error_label st1 = "you did not enter a csv file" /\
  info_table st1 = info_table st /\
  calculate_with a st1 = (inr tt, st1).
Proof.
  intros Hdisk st1. unfold st1, state_after, outcome.
  rewrite (missing_file_reported disk chosen st Hdisk). cbn [fst snd].
  repeat split.
Qed.

Lemma missing_file_blocks_calculate_witness :
  calculate_with 100 (state_after (open_csv sample_disk "nowhere.csv") loaded_even)
  = (inr tt, state_after (open_csv sample_disk "nowhere.csv") loaded_even).
Proof.
  refine (proj2 (proj2 (proj2 (proj2
    (missing_file_blocks_calculate sample_disk "nowhere.csv" 100 loaded_even _))))).
  reflexivity.
Defined.

Lemma buy_or_sell_no_name (p t c m : float) (key : nat) (st : UiMainWindow)
  (hold : bool) :
  (c =? 0)%float = false ->
  looks_good (t * p / c) m = inr hold ->
  nth_error (info_table st) 1 = None ->
  buy_or_sell p t c m key st = (inl Py.IndexError, record_target (t * p) st).
Proof.
  intros Hc Hhold Hrow.
  unfold buy_or_sell, bind, divide. rewrite Hc. unfold ret at 1.
  rewrite Hhold. unfold lift, ret at 1, modify, table_cell, bind, get.
  change (info_table (set_target_value _ st)) with (info_table st).
  unfold index. now rewrite Hrow.
Qed.

(** X4: A file that was refused in the loop of lines 67-70 leaves the info
    table with its heading alone.  On such a form [calculate_with] never
    computes a strategy: it raises [IndexError] or [ZeroDivisionError],
    unless the one balance read happens to be -1, which passes for the
    no-data flag and gives the message. *)
Theorem calculate_after_refused_file (a : float) (h : list string)
  (st : UiMainWindow) :
  info_table st = [Row h] ->
  (no_data (current_balances st) = true /\
   calculate_with a st
   = (inr tt, set_error_label "you did not enter a csv file" st)) \/
  (exists e st',
      calculate_with a st = (inl e, st') /\
      (e = Py.IndexError \/ e = Py.ZeroDivisionError)).
Proof.
  intros Htable.
  destruct (no_data (current_balances st)) eqn:Hno.
  { left. split; [reflexivity|].
    unfold calculate_with, bind, get. now rewrite Hno. }
  right.
  assert (Hfail : forall e st',
            calculate_strategy a st = (inl e, st') ->
            exists e0 st0,
              bind (calculate_strategy a)
                (fun _ => bind (modify (set_error_label "Strategy Calculated"))
                   (fun _ => bind table_text
                      (fun s => bind (modify (set_info_label s))
                         (fun _ => for_each [0; 1; 2]%nat
                                     (fun _ _ => remove_last_row) tt)))) st
              = (inl e0, st0) /\ e0 = e).
  { intros e st' H. exists e, st'. split; [now apply bind_raise | reflexivity]. }
  assert (Hrun : exists e st', calculate_strategy a st = (inl e, st') /\
                   (e = Py.IndexError \/ e = Py.ZeroDivisionError)).
  { unfold calculate_strategy. unfold bind at 1, get. cbv beta iota.
    destruct (glide_path (filename st)) as [[b i] n].
    step_modify.
    destruct (nth_error (current_balances st) 0) as [c0|] eqn:Hc0.
    2:{ eexists _, _. split; [|left; reflexivity].
        apply bind_raise. unfold balance, bind, get, index.
        cbn [current_balances set_target_value]. now rewrite Hc0. }
    erewrite bind_ok by (apply balance_ok; exact Hc0).
    destruct (c0 =? 0)%float eqn:H0.
    { eexists _, _. split; [|right; reflexivity].
      apply bind_raise. now apply buy_or_sell_zero. }
    destruct (looks_good_total a (Py.sum (current_balances st)) b c0)
      as [h0 Hh0].
    eexists _, _. split; [|left; reflexivity].
    apply bind_raise. eapply buy_or_sell_no_name; [exact H0 | exact Hh0 |].
    cbn [info_table set_target_value]. now rewrite Htable. }
  destruct Hrun as (e & st' & Hrun & Hkind).
  destruct (Hfail e st' Hrun) as (e0 & st0 & Hall & ->).
  exists e, st0. split; [|exact Hkind].
  unfold calculate_with. unfold bind at 1, get. cbv beta iota.
  rewrite Hno. exact Hall.
Qed.

Lemma calculate_after_refused_file_witness :
  exists e st',
    calculate_with 0
      (snd (open_csv sample_disk "Short_2020.csv" loaded_even)) = (inl e, st') /\
    (e = Py.IndexError \/ e = Py.ZeroDivisionError).
Proof.
  destruct (calculate_after_refused_file 0 header
              (snd (open_csv sample_disk "Short_2020.csv" loaded_even)))
    as [[Hno _] | H].
  - vm_compute. reflexivity.
  - vm_compute in Hno. discriminate Hno.
  - exact H.
Defined.

(** * Before any file is chosen *)

(** X13: On the form as [__init__] leaves it, whatever ASCII text is typed
    for the amount, [calculate] returns and changes the error label only:
    it asks for a file, or, for a text that is neither blank nor a number,
    reports the amount. *)
Theorem fresh_form_asks_for_file (text : string) :
  ascii_text text = true ->
  exists msg,
    calculate (type_amount text init)
    = (inr tt, set_error_label msg (type_amount text init)) /\
    (msg = "you did not enter a csv file"
     \/ msg = "You did not enter a valid amount") /\
    (msg = "You did not enter a valid amount"
     <-> Py.float text = None /\ text <> "").
Proof.
  intros _.
  unfold calculate, bind, get. cbn [type_amount entry_lineEdit fst snd].
  destruct (Py.float text) as [x|] eqn:Hx.
  - exists "you did not enter a csv file". split; [reflexivity|].
    split; [now left|]. split; [discriminate|]. intros [H _]. discriminate.
  - destruct (String.eqb_spec text "") as [Hblank|Hfilled].
    + exists "you did not enter a csv file". split; [reflexivity|].
      split; [now left|]. split; [discriminate|]. intros [_ H]. contradiction.
    + exists "You did not enter a valid amount". split; [reflexivity|].
      split; [now right|]. split; [now split|reflexivity].
Qed.

Lemma fresh_form_asks_for_file_witness :
  exists msg,
    calculate (type_amount "$250" init)
    = (inr tt, set_error_label msg (type_amount "$250" init)) /\
    (msg = "you did not enter a csv file"
     \/ msg = "You did not enter a valid amount") /\
    (msg = "You did not enter a valid amount"
     <-> Py.float "$250" = None /\ "$250" <> "").
Proof.
  apply (fresh_form_asks_for_file "$250"). reflexivity.
Defined.

(** * The cells of the table *)

Lemma length_repeat_char (c : ascii) (n : nat) :
  String.length (Py.repeat_char c n) = n.
Proof. induction n as [|n IH]; simpl; [reflexivity|now rewrite IH]. Qed.

Lemma length_ljust (width : nat) (s : string) :
  String.length (Py.ljust width s) = Nat.max width (String.length s).
Proof.
  unfold Py.ljust. rewrite length_append, length_repeat_char. lia.
Qed.

Lemma prefix_append (s t : string) : prefix s (s ++ t) = true.
Proof.
  induction s as [|c s IH]; simpl.
  - now destruct t.
  - destruct (ascii_dec c c) as [_|Hne]; [exact IH|contradiction].
Qed.

(** X14: A cell of the table is padded with blanks to twenty columns and
    closed by a bar; a cell longer than that is not cut, it keeps all its
    characters and makes its column wider than the others. *)
Theorem format_cell_width (cell : string) :
  String.length (format_cell cell) = Nat.max 20 (String.length cell) + 1 /\
  prefix cell (format_cell cell) = true.
Proof.
  unfold format_cell. split.
  - rewrite length_append, !length_ljust.
    change (String.length "|") with 1. lia.
  - unfold Py.ljust. rewrite !append_assoc. apply prefix_append.
Qed.
